(** * datasets/bib_to_tfrecords.py: conversion of the bib dataset to TFRecords

    A shallow embedding of the conversion script and the properties of its
    loader ([_process_image]), encoder ([_convert_to_example]) and driver
    ([run]).

    Python values are modelled as the script sees them: [str] as [string]
    (a text by the bytes of its UTF-8 encoding), numbers as an [int] or a
    binary64 [float] (Rocq's primitive floats),
    exceptions as an error result, the file system and the console as an
    explicit state threaded through the calls.

    The file has the model first (Python strings, [os.path], numbers and
    their literals, element trees, the world, the script itself and a small
    dataset), then the lemmas on paths, on binary64 division by the image
    size, on the loader, the encoder and the driver, then the claims of
    the specification, C1 to C10, and last further properties of the
    script, X1 to X23. *)

From Stdlib Require Import ZArith Floats String Ascii List Lia Bool.
From stdpp Require Import gmap strings list pretty.

Local Open Scope Z_scope.

(** ** Python strings *)

Module Str.

Definition startswith (c : ascii) (s : string) : bool :=
  match s with
  | String d _ => Ascii.eqb d c
  | EmptyString => false
  end.

Fixpoint endswith (c : ascii) (s : string) : bool :=
  match s with
  | EmptyString => false
  | String d EmptyString => Ascii.eqb d c
  | String _ s' => endswith c s'
  end.

Definition is_empty (s : string) : bool :=
  match s with EmptyString => true | _ => false end.

(** [s.split(sep)] for a one-character separator: every occurrence cuts,
    empty pieces are kept, the result is never the empty list. *)
Fixpoint split (sep : ascii) (s : string) : list string :=
  match s with
  | EmptyString => [EmptyString]
  | String c s' =>
      if Ascii.eqb c sep then EmptyString :: split sep s'
      else match split sep s' with
           | piece :: rest => String c piece :: rest
           | [] => [String c EmptyString]
           end
  end.

(** [l[0]] on the result of a split, which always has a first piece
    (see [split_first_piece]). *)
Definition item0 (l : list string) : string :=
  match l with
  | piece :: _ => piece
  | [] => EmptyString
  end.

(** The characters of [s] before the first [sep]. *)
Fixpoint before (sep : ascii) (s : string) : string :=
  match s with
  | EmptyString => EmptyString
  | String c s' => if Ascii.eqb c sep then EmptyString else String c (before sep s')
  end.

Fixpoint contains (c : ascii) (s : string) : bool :=
  match s with
  | EmptyString => false
  | String d s' => Ascii.eqb d c || contains c s'
  end.

Fixpoint count (c : ascii) (s : string) : nat :=
  match s with
  | EmptyString => 0%nat
  | String d s' => ((if Ascii.eqb d c then 1 else 0) + count c s')%nat
  end.

End Str.

(** ** os.path *)

Module OsPath.

(** One step of [posixpath.join]: an absolute component restarts the
    path, a separator is inserted unless the path so far is empty or
    already ends with one. *)
Definition join2 (path b : string) : string :=
  if Str.startswith "/" b then b
  else if Str.is_empty path || Str.endswith "/" path then path +:+ b
  else path +:+ "/" +:+ b.

Definition join (a : string) (p : list string) : string :=
  fold_left join2 p a.

(** [os.path.splitext(p)[0]] on a file name (no directory part): the name
    without its extension, where the extension starts at the last dot and
    leading dots of the name never start one. *)
Fixpoint lstrip_dots (s : string) : string * string :=
  match s with
  | String "." s' => let '(d, r) := lstrip_dots s' in (String "." d, r)
  | _ => (EmptyString, s)
  end.

Fixpoint root_of (s : string) : string :=
  match s with
  | EmptyString => EmptyString
  | String c s' =>
      if Ascii.eqb c "." && negb (Str.contains "." s') then EmptyString
      else String c (root_of s')
  end.

Definition splitext_root (fn : string) : string :=
  let '(dots, rest) := lstrip_dots fn in dots +:+ root_of rest.

(** Two spellings of one POSIX path: a run of separators counts as one. *)
Fixpoint squeeze (s : string) : string :=
  match s with
  | EmptyString => EmptyString
  | String c s' =>
      if Ascii.eqb c "/" && Str.startswith "/" s' then squeeze s'
      else String c (squeeze s')
  end.

Definition same_path (p q : string) : Prop := squeeze p = squeeze q.

(** The components [l] written after [a], a separator before each. *)
Definition slashed (a : string) (l : list string) : string :=
  fold_left (fun p b => p +:+ "/" +:+ b) l a.

End OsPath.

(** ** Exceptions *)

Inductive exn :=
| AttributeError | KeyError | TypeError | ValueError | UnicodeError
| ZeroDivisionError | AssertionError | IOError | ParseError.

Inductive result (A : Type) :=
| Ok (a : A)
| Raise (e : exn).
Arguments Ok {A} a.
Arguments Raise {A} e.

Definition rbind {A B} (r : result A) (k : A -> result B) : result B :=
  match r with
  | Ok a => k a
  | Raise e => Raise e
  end.

Definition is_ok {A} (r : result A) : bool :=
  match r with Ok _ => true | Raise _ => false end.

(** The interpreter the script runs under: CPython 2.7 or CPython 3.11.
    [/] on two ints, the text-mode read of a file, and the literal grammar
    of [int()] and [float()] with the Unicode tables behind it depend on
    it; every property below is stated for both. *)
Inductive pyversion := Py2 | Py3.

(** ** UTF-8 *)

Module Utf8.

Definition byte (c : ascii) : Z := Z.of_N (N_of_ascii c).

Definition within (lo hi b : Z) : bool := (lo <=? b) && (b <=? hi).

(** The range of the second byte of a sequence that starts with [b0]: no
    overlong form, no surrogate, nothing above U+10FFFF. *)
Definition second (b0 b1 : Z) : bool :=
  if b0 =? 224 then within 160 191 b1
  else if b0 =? 237 then within 128 159 b1
  else if b0 =? 240 then within 144 191 b1
  else if b0 =? 244 then within 128 143 b1
  else within 128 191 b1.

(** [bytes.decode('utf-8')], strict: the code points, or [None] where the
    codec raises [UnicodeDecodeError]. *)
Fixpoint decode (s : string) : option (list Z) :=
  match s with
  | EmptyString => Some []
  | String c0 s1 =>
      let b0 := byte c0 in
      if b0 <? 128 then cons b0 <$> decode s1
      else
        match s1 with
        | EmptyString => None
        | String c1 s2 =>
            let b1 := byte c1 in
            if negb (second b0 b1) then None
            else if within 194 223 b0 then
              cons ((b0 - 192) * 64 + (b1 - 128)) <$> decode s2
            else
              match s2 with
              | EmptyString => None
              | String c2 s3 =>
                  let b2 := byte c2 in
                  if negb (within 128 191 b2) then None
                  else if within 224 239 b0 then
                    cons ((b0 - 224) * 4096 + (b1 - 128) * 64 + (b2 - 128)) <$> decode s3
                  else
                    match s3 with
                    | EmptyString => None
                    | String c3 s4 =>
                        let b3 := byte c3 in
                        if within 240 244 b0 && within 128 191 b3 then
                          cons ((b0 - 240) * 262144 + (b1 - 128) * 4096
                                + (b2 - 128) * 64 + (b3 - 128)) <$> decode s4
                        else None
                    end
              end
        end
  end.

Definition valid (s : string) : bool :=
  match decode s with Some _ => true | None => false end.

Definition ascii_only (s : string) : bool :=
  forallb (fun c => byte c <? 128) (list_ascii_of_string s).

End Utf8.

(** ** Python numbers *)

Module Num.

(** An [int] (unbounded) or a [float] (IEEE 754 binary64). *)
Inductive number :=
| Int (z : Z)
| Float (f : float).

(** The binary64 nearest to [n / d] (ties to even), for [d <> 0]. On
    integer mantissas [SFdiv] rounds the exact quotient once. *)
Definition ratio_to_float (n d : Z) : float :=
  let s := xorb (n <? 0) (d <? 0) in
  match Z.abs n, Z.abs d with
  | Zpos pn, Zpos pd =>
      SF2Prim (SFdiv prec emax (S754_finite s pn 0) (S754_finite false pd 0))
  | _, _ => if s then PrimFloat.neg_zero else PrimFloat.zero
  end.

Definition Z2F (z : Z) : float := ratio_to_float z 1.

Definition to_float (n : number) : float :=
  match n with
  | Int z => Z2F z
  | Float f => f
  end.

(** Comparisons; an int meets a float through its conversion, exact for
    the ints of this script (0, 1 and 500). *)
Definition lt (a b : number) : bool :=
  match a, b with
  | Int x, Int y => x <? y
  | _, _ => PrimFloat.ltb (to_float a) (to_float b)
  end.

Definition le (a b : number) : bool :=
  match a, b with
  | Int x, Int y => x <=? y
  | _, _ => PrimFloat.leb (to_float a) (to_float b)
  end.

Definition gt (a b : number) : bool := lt b a.

Definition eq (a b : number) : bool :=
  match a, b with
  | Int x, Int y => x =? y
  | _, _ => PrimFloat.eqb (to_float a) (to_float b)
  end.

(** The builtins [min(a, b)] and [max(a, b)]: the first argument stays
    unless the second is strictly smaller (larger). *)
Definition min (a b : number) : number := if lt b a then b else a.
Definition max (a b : number) : number := if gt b a then b else a.

Definition is_zero (n : number) : bool :=
  match n with
  | Int z => z =? 0
  | Float f => PrimFloat.eqb f PrimFloat.zero
  end.

(** [a / b]: floor division of two ints under Python 2, true division
    under Python 3; float division as soon as one side is a float. *)
Definition div (py : pyversion) (a b : number) : result number :=
  if is_zero b then Raise ZeroDivisionError
  else match a, b with
       | Int x, Int y =>
           match py with
           | Py2 => Ok (Int (x / y))
           | Py3 => Ok (Float (ratio_to_float x y))
           end
       | _, _ => Ok (Float (PrimFloat.div (to_float a) (to_float b)))
       end.

(** [0 <= n <= 1] *)
Definition in_unit (n : number) : bool := le (Int 0) n && le n (Int 1).

Definition is_nan (n : number) : bool :=
  match n with
  | Int _ => false
  | Float f => PrimFloat.is_nan f
  end.

(** *** Literals: [int(text)] and [float(text)] *)

Definition code (c : ascii) : Z := Z.of_N (N_of_ascii c).

(** The white space the parsers skip at both ends of an ASCII literal
    ([Py_ISSPACE]): blank, tab, line feed, vertical tab, form feed, carriage
    return. *)
Definition is_space (c : ascii) : bool :=
  let n := code c in
  (n =? 32) || ((9 <=? n) && (n <=? 13)).

Fixpoint lstrip (s : string) : string :=
  match s with
  | String c s' => if is_space c then lstrip s' else s
  | EmptyString => s
  end.

Fixpoint rstrip (s : string) : string :=
  match s with
  | EmptyString => EmptyString
  | String c s' =>
      match rstrip s' with
      | EmptyString => if is_space c then EmptyString else String c EmptyString
      | r => String c r
      end
  end.

Definition strip (s : string) : string := rstrip (lstrip s).

(** The code points [Py_UNICODE_ISSPACE] holds of: Unicode 5.2.0 under
    CPython 2.7, Unicode 14.0.0 under CPython 3.11 (U+180E is no space any
    more). *)
Definition unicode_space (py : pyversion) (cp : Z) : bool :=
  (9 <=? cp) && (cp <=? 13) || (28 <=? cp) && (cp <=? 32)
  || (cp =? 133) || (cp =? 160) || (cp =? 5760)
  || (8192 <=? cp) && (cp <=? 8202)
  || (cp =? 8232) || (cp =? 8233) || (cp =? 8239) || (cp =? 8287) || (cp =? 12288)
  || match py with Py2 => cp =? 6158 | Py3 => false end.

(** The decimal digits of the Unicode database (general category Nd), as
    runs: the first code point of a run, the value of that code point and
    the length of the run. Unicode 5.2.0 for CPython 2.7 (a wide build),
    Unicode 14.0.0 for CPython 3.11. *)
Definition decimal_runs (py : pyversion) : list (Z * Z * Z) :=
  let ten := map (fun first => (first, 0, 10)) in
  match py with
  | Py2 =>
      ten [48; 1632; 1776; 1984; 2406; 2534; 2662; 2790; 2918; 3046; 3174; 3302;
           3430; 3664; 3792; 3872; 4160; 4240; 6112; 6160; 6470; 6608]
      ++ [(6618, 1, 1)]
      ++ ten [6784; 6800; 6992; 7088; 7232; 7248; 42528; 43216; 43264; 43472; 43600;
              44016; 65296; 66720; 120782; 120792; 120802; 120812; 120822]
  | Py3 =>
      ten [48; 1632; 1776; 1984; 2406; 2534; 2662; 2790; 2918; 3046; 3174; 3302;
           3430; 3558; 3664; 3792; 3872; 4160; 4240; 6112; 6160; 6470; 6608; 6784;
           6800; 6992; 7088; 7232; 7248; 42528; 43216; 43264; 43472; 43504; 43600;
           44016; 65296; 66720; 68912; 69734; 69872; 69942; 70096; 70384; 70736;
           70864; 71248; 71360; 71472; 71904; 72016; 72784; 73040; 73120; 92768;
           92864; 93008; 120782; 120792; 120802; 120812; 120822; 123200; 123632;
           125264; 130032]
  end.

Fixpoint decimal_in (runs : list (Z * Z * Z)) (cp : Z) : option Z :=
  match runs with
  | [] => None
  | (first, value, len) :: rest =>
      if (first <=? cp) && (cp <? first + len) then Some (value + (cp - first))
      else decimal_in rest cp
  end.

(** [Py_UNICODE_TODECIMAL] *)
Definition unicode_decimal (py : pyversion) (cp : Z) : option Z :=
  decimal_in (decimal_runs py) cp.

Definition chr (cp : Z) : ascii := ascii_of_N (Z.to_N cp).

(** What the parsers make of a text that is not plain ASCII before they
    read it as a literal. CPython 3 keeps the code points below 127,
    writes a blank for a space and the ASCII digit for a decimal digit,
    and ends the text with a question mark at the first other character.
    CPython 2, where such a text is a [unicode], writes a blank for every
    space, the ASCII digit for a decimal digit, keeps the other code
    points below 256 and raises [UnicodeEncodeError] on the first one that
    is left. *)
Fixpoint spell (py : pyversion) (cps : list Z) : result string :=
  match cps with
  | [] => Ok EmptyString
  | cp :: rest =>
      let keep (c : ascii) :=
        match spell py rest with
        | Ok s => Ok (String c s)
        | Raise e => Raise e
        end in
      match py with
      | Py3 =>
          if cp <? 127 then keep (chr cp)
          else if unicode_space Py3 cp then keep " "%char
          else match unicode_decimal Py3 cp with
               | Some d => keep (chr (48 + d))
               | None => Ok "?"%string
               end
      | Py2 =>
          if unicode_space Py2 cp then keep " "%char
          else match unicode_decimal Py2 cp with
               | Some d => keep (chr (48 + d))
               | None =>
                   if (0 <? cp) && (cp <? 256) then keep (chr cp)
                   else Raise UnicodeError
               end
      end
  end.

(** The ASCII text the literal is read from. A text that is no UTF-8 is
    the text of no parsed document; it is no literal. *)
Definition to_ascii (py : pyversion) (s : string) : result string :=
  if Utf8.ascii_only s then Ok s
  else match Utf8.decode s with
       | Some cps => spell py cps
       | None => Raise ValueError
       end.

Definition digit_val (c : ascii) : option Z :=
  let n := code c in
  if (48 <=? n) && (n <=? 57) then Some (n - 48) else None.

(** A non-empty run of decimal digits; Python 3 lets one underscore stand
    between two digits. *)
Fixpoint digits (py : pyversion) (s : string) : option (list Z) :=
  match s with
  | EmptyString => None
  | String c s' =>
      match digit_val c with
      | None => None
      | Some d =>
          match s' with
          | EmptyString => Some [d]
          | String "_" s'' =>
              match py with
              | Py3 => cons d <$> digits py s''
              | Py2 => None
              end
          | _ => cons d <$> digits py s'
          end
      end
  end.

Definition decimal (ds : list Z) : Z := fold_left (fun acc d => 10 * acc + d) ds 0.

Definition signed (s : string) : bool * string :=
  match s with
  | String "-" r => (true, r)
  | String "+" r => (false, r)
  | _ => (false, s)
  end.

Definition int_of_text (py : pyversion) (s : string) : result Z :=
  rbind (to_ascii py s) (fun t =>
  let '(neg, body) := signed (strip t) in
  match digits py body with
  | Some ds => Ok (if neg then - decimal ds else decimal ds)
  | None => Raise ValueError
  end).

(** [int(x)] where [x] is an element's [.text]: [None] is a TypeError. *)
Definition int_of (py : pyversion) (text : option string) : result Z :=
  match text with
  | Some s => int_of_text py s
  | None => Raise TypeError
  end.

Definition lower (c : ascii) : ascii :=
  let n := code c in
  if (65 <=? n) && (n <=? 90) then ascii_of_N (Z.to_N (n + 32)) else c.

Fixpoint lowercase (s : string) : string :=
  match s with
  | EmptyString => EmptyString
  | String c s' => String (lower c) (lowercase s')
  end.

(** The text before the first character that satisfies [p], and the text
    after that character when there is one. *)
Fixpoint break (p : ascii -> bool) (s : string) : string * option string :=
  match s with
  | EmptyString => (EmptyString, None)
  | String c s' =>
      if p c then (EmptyString, Some s')
      else let '(a, b) := break p s' in (String c a, b)
  end.

Definition opt_digits (py : pyversion) (s : string) : option (list Z) :=
  match s with
  | EmptyString => Some []
  | _ => digits py s
  end.

(** The value [n * 10^k] rounded to binary64. *)
Definition scaled (n k : Z) : float :=
  if 0 <=? k then ratio_to_float (n * 10 ^ k) 1
  else ratio_to_float n (10 ^ (- k)).

Definition float_of_text (py : pyversion) (s : string) : result float :=
  rbind (to_ascii py s) (fun t =>
  let '(neg, body) := signed (strip t) in
  let sign (f : float) := if neg then PrimFloat.opp f else f in
  let word := lowercase body in
  if String.eqb word "inf" || String.eqb word "infinity" then Ok (sign PrimFloat.infinity)
  else if String.eqb word "nan" then Ok PrimFloat.nan
  else
    let '(mant, expo) := break (fun c => Ascii.eqb (lower c) "e") body in
    let '(ip, fp) := break (fun c => Ascii.eqb c ".") mant in
    let fp := match fp with Some f => f | None => EmptyString end in
    let e :=
      match expo with
      | None => Some 0
      | Some t =>
          let '(eneg, ebody) := signed t in
          (fun ds => if eneg then - decimal ds else decimal ds) <$> digits py ebody
      end in
    match opt_digits py ip, opt_digits py fp, e with
    | Some di, Some df, Some e =>
        match di ++ df with
        | [] => Raise ValueError
        | ds => Ok (sign (scaled (decimal ds) (e - Z.of_nat (length df))))
        end
    | _, _, _ => Raise ValueError
    end).

(** [float(x)] where [x] is an element's [.text]. *)
Definition float_of (py : pyversion) (text : option string) : result float :=
  match text with
  | Some s => float_of_text py s
  | None => Raise TypeError
  end.

End Num.
Export Num (number(..)).

(** The binary64 numbers 0, 1 and 500 in the specification's format. *)
Definition SF_zero : spec_float := S754_zero false.
Definition SF_one : spec_float := S754_finite false 4503599627370496 (-52).
Definition SF_500 : spec_float := S754_finite false 8796093022208000 (-44).

(** ** xml.etree.ElementTree *)

Module ET.

#[local] Set Warnings "-register-all".

(** A parsed element: its tag, its [.text] ([None] when the element has
    no character data before its first child) and its child elements in
    document order. *)
Inductive Element :=
| Elem (tag : string) (text : option string) (children : list Element).

Definition tag (e : Element) : string := let '(Elem t _ _) := e in t.
Definition text (e : Element) : option string := let '(Elem _ x _) := e in x.
Definition children (e : Element) : list Element := let '(Elem _ _ c) := e in c.

(** [e.findall(t)]: the direct children tagged [t], in document order. *)
Definition findall (t : string) (e : Element) : list Element :=
  filter (fun c => tag c = t) (children e).

(** [e.find(t)]: the first direct child tagged [t], or [None]. *)
Definition find (t : string) (e : Element) : option Element :=
  head (findall t e).

(** The truth value of an element is that of its child count:
    [Element.__len__] counts subelements and there is no [__bool__] that
    looks at the text. *)
Definition truth (e : Element) : bool :=
  match children e with [] => false | _ => true end.

(** [if e.find(t):] - [None] is false, an element is tested by [truth]. *)
Definition find_truth (t : string) (e : Element) : bool :=
  match find t e with
  | Some c => truth c
  | None => false
  end.

(** [x.text] and [x.find(t)] where [x] is the result of a [find]:
    attribute access on [None] is an AttributeError. *)
Definition text_of (x : option Element) : result (option string) :=
  match x with
  | Some e => Ok (text e)
  | None => Raise AttributeError
  end.

Definition find_in (t : string) (x : option Element) : result (option Element) :=
  match x with
  | Some e => Ok (find t e)
  | None => Raise AttributeError
  end.

End ET.
Export ET (Element(..)).

(** ** The output record *)

(** Modelled from the spec: the feature constructors [int64_feature],
    [float_feature] and [bytes_feature] of [datasets.dataset_utils] are not
    part of the sources; an Example is modelled as the record of the spec's
    output schema, one field per feature key, a float feature holding the
    numbers as floats. The constructors are taken to store what they are
    given: what they refuse or round (an integer outside int64, a [str]
    where bytes are wanted, a float beyond single precision) is theirs and
    is not modelled. *)
Record Example := {
  image_height : Z;
  image_width : Z;
  image_channels : Z;
  image_shape : list Z;
  bbox_xmin : list float;
  bbox_xmax : list float;
  bbox_ymin : list float;
  bbox_ymax : list float;
  bbox_label : list Z;
  bbox_label_text : list string;
  bbox_difficult : list Z;
  bbox_truncated : list Z;
  image_format : string;
  image_encoded : string;
}.

(** Modelled from the spec: [float_feature] of [datasets.dataset_utils],
    which stores a sequence of numbers as the floats of the record. *)
Definition float_feature (l : list number) : list float := map Num.to_float l.

(** ** The world: files and console *)

(** A path names a directory with its entries in listing order, or a file
    with its bytes and the tree [ET.parse] builds from them ([None] when
    they are not well-formed XML). Paths are the strings the script passes
    to [tf.gfile] and [os]. *)
Inductive node :=
| Dir (entries : list string)
| File (bytes : string) (xml : option Element).

(** The calls the script makes on the file system, as they happen. *)
Inductive call :=
| CExists (path : string)
| CMakeDirs (path : string)
| CListdir (path : string)
| CRead (path : string)
| CParse (path : string)
| COpenWriter (path : string)
| CWrite (path : string).

Record World := {
  fs : gmap string node;
  stdout : list string;
  calls : list call;
}.

Definition M (A : Type) : Type := World -> World * result A.

Definition ret {A} (a : A) : M A := fun w => (w, Ok a).
Definition raise {A} (e : exn) : M A := fun w => (w, Raise e).
Definition bind {A B} (m : M A) (k : A -> M B) : M B :=
  fun w => match m w with
           | (w', Ok a) => k a w'
           | (w', Raise e) => (w', Raise e)
           end.
Definition lift {A} (r : result A) : M A := fun w => (w, r).

Declare Scope py_scope.
Delimit Scope py_scope with py.
Notation "'let*' p := m 'in' k" := (bind m (fun p => k))
  (at level 10, p pattern, m at level 100, k at level 200) : py_scope.
Notation "'let?' p := r 'in' k" := (rbind r (fun p => k))
  (at level 10, p pattern, r at level 100, k at level 200) : py_scope.
Local Open Scope py_scope.

(** [for x in l: body], the loop variables threaded as [s]. *)
Fixpoint for_each {A S} (l : list A) (s : S) (body : S -> A -> M S) : M S :=
  match l with
  | [] => ret s
  | x :: l' => let* s' := body s x in for_each l' s' body
  end.

Fixpoint rfor_each {A S} (l : list A) (s : S) (body : S -> A -> result S) : result S :=
  match l with
  | [] => Ok s
  | x :: l' => let? s' := body s x in rfor_each l' s' body
  end.

Definition logged (w : World) (c : call) : World :=
  {| fs := fs w; stdout := stdout w; calls := calls w ++ [c] |}.

Definition log (c : call) : M unit := fun w => (logged w c, Ok tt).

Definition set_fs (f : gmap string node) : M unit :=
  fun w => ({| fs := f; stdout := stdout w; calls := calls w |}, Ok tt).

Definition get_fs : M (gmap string node) := fun w => (w, Ok (fs w)).

Definition newline : string := String (ascii_of_nat 10) EmptyString.
Definition carriage_return : string := String (ascii_of_nat 13) EmptyString.

(** [sys.stdout.write(s)] and [print(s)]. *)
Definition stdout_write (s : string) : M unit :=
  fun w => ({| fs := fs w; stdout := stdout w ++ [s]; calls := calls w |}, Ok tt).
Definition print (s : string) : M unit := stdout_write (s +:+ newline).

(** What a read in text mode makes of the bytes of a file: CPython 2
    returns them as they are; CPython 3 decodes them as UTF-8, raises
    [UnicodeDecodeError] where they are none, and returns the text (the
    same bytes, see the header). *)
Definition decodes (py : pyversion) (bytes : string) : bool :=
  match py with
  | Py2 => true
  | Py3 => Utf8.valid bytes
  end.

Module gfile.

Definition Exists (path : string) : M bool :=
  let* _ := log (CExists path) in
  let* f := get_fs in
  ret (bool_decide (is_Some (f !! path))).

(** [MakeDirs] leaves an existing directory alone; the parents it would
    create are not tracked. *)
Definition MakeDirs (path : string) : M unit :=
  let* _ := log (CMakeDirs path) in
  let* f := get_fs in
  match f !! path with
  | None => set_fs (<[path := Dir []]> f)
  | Some (Dir _) => ret tt
  | Some (File _ _) => raise IOError
  end.

(** [FastGFile(path, 'r').read()] *)
Definition read (py : pyversion) (path : string) : M string :=
  let* _ := log (CRead path) in
  let* f := get_fs in
  match f !! path with
  | Some (File bytes _) => if decodes py bytes then ret bytes else raise UnicodeError
  | _ => raise IOError
  end.

End gfile.

(** [os.listdir(path)] *)
Definition listdir (path : string) : M (list string) :=
  let* _ := log (CListdir path) in
  let* f := get_fs in
  match f !! path with
  | Some (Dir entries) => ret entries
  | _ => raise IOError
  end.

(** [ET.parse(path).getroot()] *)
Definition ET_parse (path : string) : M Element :=
  let* _ := log (CParse path) in
  let* f := get_fs in
  match f !! path with
  | Some (File _ (Some root)) => ret root
  | Some (File _ None) => raise ParseError
  | _ => raise IOError
  end.

(** [tf.python_io.TFRecordWriter(path)]: the file is created empty, or
    emptied, when the writer opens; each [write] appends one framed record.
    A record file is no XML document. The directory the file is made in is
    not looked at: the properties of a run that writes are stated for an
    output directory that is no regular file. *)
Definition writer_open (path : string) : M unit :=
  let* _ := log (COpenWriter path) in
  let* f := get_fs in
  match f !! path with
  | Some (Dir _) => raise IOError
  | _ => set_fs (<[path := File EmptyString None]> f)
  end.

Definition writer_write (frame : string -> string) (path record : string) : M unit :=
  let* _ := log (CWrite path) in
  let* f := get_fs in
  match f !! path with
  | Some (File bytes _) => set_fs (<[path := File (bytes +:+ frame record) None]> f)
  | _ => raise IOError
  end.

(** ** Module constants *)

Definition DIRECTORY_ANNOTATIONS : string := "Annotations/".
Definition DIRECTORY_IMAGES : string := "JPEGImages/".
Definition IMAGE_SHAPE : list Z := [500; 500; 3].

(** [IMAGE_SHAPE[i]] for the literal indices the script uses. *)
Definition IMAGE_SHAPE_at (i : nat) : Z := nth i IMAGE_SHAPE 0.

(** ** Path resolution of the loader (lines 78-85 of the script) *)

Definition image_filename (directory name dataset : string) : string :=
  if String.eqb dataset "training" then
    OsPath.join directory
      [DIRECTORY_IMAGES; dataset; Str.item0 (Str.split "-" name); name +:+ ".jpg"]
  else
    OsPath.join directory [DIRECTORY_IMAGES; dataset; name +:+ ".jpg"].

Definition annotation_filename (directory name dataset : string) : string :=
  OsPath.join directory [DIRECTORY_ANNOTATIONS; dataset; name +:+ ".xml"].

(** The paths as the specification writes them: [root/JPEGImages/...] and
    [root/Annotations/...], the prefix of an identifier being what stands
    before its first dash. *)
Definition spec_image_path (root name dataset : string) : string :=
  if String.eqb dataset "training" then
    root +:+ "/JPEGImages/training/" +:+ Str.before "-" name +:+ "/" +:+ name +:+ ".jpg"
  else
    root +:+ "/JPEGImages/" +:+ dataset +:+ "/" +:+ name +:+ ".jpg".

Definition spec_annotation_path (root name dataset : string) : string :=
  root +:+ "/Annotations/" +:+ dataset +:+ "/" +:+ name +:+ ".xml".

(** A directory or file name: not empty, no separator inside. *)
Definition plain_name (s : string) : bool :=
  negb (Str.is_empty s) && negb (Str.contains "/" s).

(** A directory path written without a trailing separator. *)
Definition plain_dir (s : string) : bool :=
  negb (Str.is_empty s) && negb (Str.endswith "/" s).

(** ['%s/%s_%s.tfrecord' % (output_dir, name, dataset)] *)
Definition _get_output_filename (output_dir dataset name : string) : string :=
  output_dir +:+ "/" +:+ name +:+ "_" +:+ dataset +:+ ".tfrecord".

(** ** The script *)

Section Script.

(** What the script takes from outside its file: the interpreter, the
    label table of [datasets.bib_common] (name to class id, the first
    component of the table's tuples), the serializer of the Example proto
    and the framing of the record writer. *)
Context (py : pyversion)
        (BIB_LABELS : gmap string Z)
        (SerializeToString : Example -> string)
        (frame : string -> string).

(** [BIB_LABELS[label][0]], [label] being an element's [.text]. *)
Definition label_id (label : option string) : result Z :=
  match label with
  | Some l => match BIB_LABELS !! l with
              | Some id => Ok id
              | None => Raise KeyError
              end
  | None => Raise KeyError
  end.

Definition is_ascii (s : string) : bool :=
  forallb (fun c => Num.code c <? 128) (list_ascii_of_string s).

(** [label.encode('ascii')] *)
Definition encode_ascii (label : option string) : result string :=
  match label with
  | Some l => if is_ascii l then Ok l else Raise UnicodeError
  | None => Raise AttributeError
  end.

(** Lines 100-107: [if obj.find(t): int(obj.find(t).text) else 0]. *)
Definition flag (t : string) (obj : Element) : result Z :=
  if ET.find_truth t obj then
    let? x := ET.text_of (ET.find t obj) in Num.int_of py x
  else Ok 0.

(** [float(bbox.find(t).text)] *)
Definition coordinate (t : string) (bbox : option Element) : result float :=
  let? e := ET.find_in t bbox in
  let? x := ET.text_of e in
  Num.float_of py x.

(** [max(min(raw, IMAGE_SHAPE[i]), 0)] *)
Definition clamp (raw : float) (i : nat) : number :=
  Num.max (Num.min (Float raw) (Int (IMAGE_SHAPE_at i))) (Int 0).

(** The lists the loop of [_process_image] appends to. *)
Record annotations := {
  bboxes : list (list number);
  labels : list Z;
  labels_text : list string;
  difficult : list Z;
  truncated : list Z;
}.

Definition no_annotations : annotations :=
  {| bboxes := []; labels := []; labels_text := []; difficult := []; truncated := [] |}.

(** The body of [for obj in root.findall('object')], lines 96-120. *)
Definition process_object (name : string) (acc : annotations) (obj : Element)
  : M annotations :=
  let* label := lift (ET.text_of (ET.find "name" obj)) in
  let* id := lift (label_id label) in
  let labels := labels acc ++ [id] in
  let* text := lift (encode_ascii label) in
  let labels_text := labels_text acc ++ [text] in
  let* d := lift (flag "difficult" obj) in
  let difficult := difficult acc ++ [d] in
  let* t := lift (flag "truncated" obj) in
  let truncated := truncated acc ++ [t] in
  let bbox := ET.find "bndbox" obj in
  let* raw_ymin := lift (coordinate "ymin" bbox) in
  let ymin := clamp raw_ymin 0 in
  let* raw_xmin := lift (coordinate "xmin" bbox) in
  let xmin := clamp raw_xmin 1 in
  let* raw_ymax := lift (coordinate "ymax" bbox) in
  let ymax := clamp raw_ymax 0 in
  let* raw_xmax := lift (coordinate "xmax" bbox) in
  let xmax := clamp raw_xmax 1 in
  let* _ := (if Num.gt ymax (Int 500) || Num.gt xmax (Int 500) then print name else ret tt) in
  let* b0 := lift (Num.div py ymin (Int (IMAGE_SHAPE_at 0))) in
  let* b1 := lift (Num.div py xmin (Int (IMAGE_SHAPE_at 1))) in
  let* b2 := lift (Num.div py ymax (Int (IMAGE_SHAPE_at 0))) in
  let* b3 := lift (Num.div py xmax (Int (IMAGE_SHAPE_at 1))) in
  ret {| bboxes := bboxes acc ++ [[b0; b1; b2; b3]];
         labels := labels; labels_text := labels_text;
         difficult := difficult; truncated := truncated |}.

(** [max(min(raw, IMAGE_SHAPE[i]), 0) / IMAGE_SHAPE[i]]: a raw coordinate
    clamped (lines 110-113), then divided (lines 116-119). *)
Definition normalized (raw : float) (i : nat) : result number :=
  Num.div py (clamp raw i) (Int (IMAGE_SHAPE_at i)).

(** What the loop body computes from one object, without the world: the
    box, the label id, the label text and the two flags (see
    [process_object_row]). *)
Definition object_row (obj : Element) : result (list number * Z * string * Z * Z) :=
  let? label := ET.text_of (ET.find "name" obj) in
  let? id := label_id label in
  let? text := encode_ascii label in
  let? d := flag "difficult" obj in
  let? t := flag "truncated" obj in
  let bbox := ET.find "bndbox" obj in
  let? raw_ymin := coordinate "ymin" bbox in
  let? raw_xmin := coordinate "xmin" bbox in
  let? raw_ymax := coordinate "ymax" bbox in
  let? raw_xmax := coordinate "xmax" bbox in
  let? b0 := normalized raw_ymin 0 in
  let? b1 := normalized raw_xmin 1 in
  let? b2 := normalized raw_ymax 0 in
  let? b3 := normalized raw_xmax 1 in
  Ok ([b0; b1; b2; b3], id, text, d, t).

Definition push (acc : annotations) (row : list number * Z * string * Z * Z)
  : annotations :=
  let '(box, id, text, d, t) := row in
  {| bboxes := bboxes acc ++ [box];
     labels := labels acc ++ [id];
     labels_text := labels_text acc ++ [text];
     difficult := difficult acc ++ [d];
     truncated := truncated acc ++ [t] |}.

Definition add_object (acc : annotations) (obj : Element) : result annotations :=
  let? row := object_row obj in Ok (push acc row).

Definition _process_image (directory name dataset : string)
  : M (string * annotations) :=
  let filename := image_filename directory name dataset in
  let* image_data := gfile.read py filename in
  let filename := annotation_filename directory name dataset in
  let* root := ET_parse filename in
  let* acc := for_each (ET.findall "object" root) no_annotations (process_object name) in
  ret (image_data, acc).

(** [[l.append(point) for l, point in zip([xmin, ymin, xmax, ymax], b)]]:
    the i-th list takes the i-th point, as far as the shorter side goes. *)
Definition append_points (ls : list number * list number * list number * list number)
           (b : list number) :=
  let '(xmin, ymin, xmax, ymax) := ls in
  match b with
  | [] => (xmin, ymin, xmax, ymax)
  | [p0] => (xmin ++ [p0], ymin, xmax, ymax)
  | [p0; p1] => (xmin ++ [p0], ymin ++ [p1], xmax, ymax)
  | [p0; p1; p2] => (xmin ++ [p0], ymin ++ [p1], xmax ++ [p2], ymax)
  | p0 :: p1 :: p2 :: p3 :: _ => (xmin ++ [p0], ymin ++ [p1], xmax ++ [p2], ymax ++ [p3])
  end.

(** One pass of the loop of lines 142-145: the assertion, then the
    appends. *)
Definition check_box (ls : list number * list number * list number * list number)
           (b : list number) :=
  if negb (length b =? 4)%nat then Raise AssertionError
  else Ok (append_points ls b).

Definition _convert_to_example (image_data : string) (labels : list Z)
           (labels_text : list string) (bboxes : list (list number))
           (difficult truncated : list Z) : result Example :=
  let? (xmin, ymin, xmax, ymax) :=
    rfor_each bboxes ([], [], [], []) check_box in
  let image_format := "JPEG" in
  Ok {| image_height := IMAGE_SHAPE_at 0;
        image_width := IMAGE_SHAPE_at 1;
        image_channels := IMAGE_SHAPE_at 2;
        image_shape := IMAGE_SHAPE;
        bbox_xmin := float_feature xmin;
        bbox_xmax := float_feature xmax;
        bbox_ymin := float_feature ymin;
        bbox_ymax := float_feature ymax;
        bbox_label := labels;
        bbox_label_text := labels_text;
        bbox_difficult := difficult;
        bbox_truncated := truncated;
        image_format := image_format;
        image_encoded := image_data |}.

(** The i-th coordinate of every box. *)
Definition column (i : nat) (boxes : list (list number)) : list number :=
  map (fun b => nth i b (Int 0)) boxes.

(** The writer is named by the path it was opened on. *)
Definition _add_to_tfrecord (dataset_dir dataset name tfrecord_writer : string)
  : M unit :=
  let* (image_data, a) := _process_image dataset_dir name dataset in
  let* example := lift (_convert_to_example image_data (labels a) (labels_text a)
                                            (bboxes a) (difficult a) (truncated a)) in
  writer_write frame tfrecord_writer (SerializeToString example).

(** The identifiers of a split, lines 201-202: the annotation directory
    is listed and each entry is cut by [fn.split('.')[0]]. *)
Definition identifiers (entries : list string) : list string :=
  map (fun fn => Str.item0 (Str.split "." fn)) entries.

Definition enumerate_identifiers (dataset_dir dataset : string) : M (list string) :=
  let path := OsPath.join dataset_dir [DIRECTORY_ANNOTATIONS; dataset] in
  let* entries := listdir path in
  ret (identifiers entries).

Definition progress (i total : nat) : string :=
  carriage_return +:+ ">> Converting image " +:+ pretty i +:+ "/" +:+ pretty total.

(** What the [print] of line 198 writes. *)
Definition skip_message : string :=
  "Dataset files already exist. Exiting without re-creating them." +:+ newline.

Definition run (dataset_dir output_dir name dataset : string) : M unit :=
  let* e := gfile.Exists output_dir in
  let* _ := (if negb e then gfile.MakeDirs output_dir else ret tt) in
  let tf_filename := _get_output_filename output_dir dataset name in
  let* e := gfile.Exists tf_filename in
  if e then
    print "Dataset files already exist. Exiting without re-creating them."
  else
    let* filenames := enumerate_identifiers dataset_dir dataset in
    let* _ := writer_open tf_filename in
    let* _ :=
      for_each filenames 0%nat
        (fun i filename =>
           let* _ := stdout_write (progress (i + 1) (length filenames)) in
           let* _ := _add_to_tfrecord dataset_dir dataset filename tf_filename in
           ret (S i)) in
    print (newline +:+ "Finished converting the bib dataset!").

(** The record [_add_to_tfrecord] hands to the serializer: the loader's
    output passed to the encoder as line 177 passes it. *)
Definition encoded_example (dataset_dir dataset name : string) (w : World)
  : result Example :=
  let? (image_data, a) := snd (_process_image dataset_dir name dataset w) in
  _convert_to_example image_data (labels a) (labels_text a)
                      (bboxes a) (difficult a) (truncated a).

(** Every iteration of the loader's loop appends one entry to each list,
    and the box it appends has four coordinates. *)
Definition aligned (n : nat) (a : annotations) : Prop :=
  length (bboxes a) = n /\ length (labels a) = n /\ length (labels_text a) = n
  /\ length (difficult a) = n /\ length (truncated a) = n
  /\ Forall (fun b => length b = 4%nat) (bboxes a).

End Script.

(** A coordinate that is a number lies in [0, 1]. *)
Definition unit_or_nan (v : number) : Prop :=
  Num.is_nan v = false -> Num.in_unit v = true.

(** Paths that exist keep existing: the script deletes nothing. *)
Definition keeps (w w' : World) : Prop :=
  forall p, is_Some (fs w !! p) -> is_Some (fs w' !! p).

Definition Keeps {A} (m : M A) : Prop := forall w, keeps w (fst (m w)).

(** The identifiers as the specification words them: each listed file name
    without its extension. *)
Definition spec_identifiers (entries : list string) : list string :=
  map OsPath.splitext_root entries.

(** ** A small dataset

    One image of the validation split with two objects: the first marked
    difficult, the second with no flag and a box that leaves the image on
    the right ([xmax] 600 on a width of 500). *)

Definition leaf (tag text : string) : Element := Elem tag (Some text) [].

Definition bndbox (xmin ymin xmax ymax : string) : Element :=
  Elem "bndbox" None
       [leaf "xmin" xmin; leaf "ymin" ymin; leaf "xmax" xmax; leaf "ymax" ymax].

Definition example_annotation : Element :=
  Elem "annotation" None
    [ Elem "object" None
        [leaf "name" "bib"; leaf "difficult" "1"; bndbox "100" "120" "300" "360"];
      Elem "object" None
        [leaf "name" "bib"; bndbox "10" "10" "600" "450"] ].

Definition example_labels : gmap string Z := {[ "bib" := 1 ]}.

Definition example_world : World :=
  {| fs := {[ "/data/bib/JPEGImages/validation/0042-17.jpg" := File "JFIF" None;
              "/data/bib/Annotations/validation/0042-17.xml"
                := File "<annotation>" (Some example_annotation);
              "/data/bib/Annotations/validation" := Dir ["0042-17.xml"];
              "/out" := Dir ["bib_validation.tfrecord"];
              "/out/bib_validation.tfrecord" := File "records" None ]};
     stdout := [];
     calls := [] |}.

(** The same image with a box whose [ymax] reads [nan]. *)
Definition nan_annotation : Element :=
  Elem "annotation" None
    [ Elem "object" None [leaf "name" "bib"; bndbox "10" "10" "20" "nan"] ].

Definition nan_world : World :=
  {| fs := {[ "/data/bib/JPEGImages/validation/0042-17.jpg" := File "JFIF" None;
              "/data/bib/Annotations/validation/0042-17.xml"
                := File "<annotation>" (Some nan_annotation) ]};
     stdout := [];
     calls := [] |}.

(** An annotation directory with a file name of two dots. *)
Definition dotted_world : World :=
  {| fs := {[ "/data/bib/Annotations/validation" := Dir ["a.b.xml"] ]};
     stdout := [];
     calls := [] |}.

(** ** What a load and a run leave behind *)

(** One row of the loader's five lists. *)
Definition row_box (r : list number * Z * string * Z * Z) : list number :=
  let '(box, _, _, _, _) := r in box.
Definition row_label (r : list number * Z * string * Z * Z) : Z :=
  let '(_, id, _, _, _) := r in id.
Definition row_text (r : list number * Z * string * Z * Z) : string :=
  let '(_, _, text, _, _) := r in text.
Definition row_difficult (r : list number * Z * string * Z * Z) : Z :=
  let '(_, _, _, d, _) := r in d.
Definition row_truncated (r : list number * Z * string * Z * Z) : Z :=
  let '(_, _, _, _, t) := r in t.

(** The four coordinate sequences of a record read across: one box per
    position, in the order of the feature keys xmin, ymin, xmax, ymax. *)
Fixpoint boxes_of (xmin ymin xmax ymax : list float) : list (list float) :=
  match xmin, ymin, xmax, ymax with
  | x0 :: xmin', y0 :: ymin', x1 :: xmax', y1 :: ymax' =>
      [x0; y0; x1; y1] :: boxes_of xmin' ymin' xmax' ymax'
  | _, _, _, _ => []
  end.

(** What is a file at a path: its bytes and its parse; a directory or
    nothing at the path is no file. *)
Definition file_at (f : gmap string node) (p : string) : option (string * option Element) :=
  match f !! p with
  | Some (File bytes xml) => Some (bytes, xml)
  | _ => None
  end.





(** A computation that writes no file but the one at [target]: at every
    other path the file, or the absence of a file, is as it was. *)
Definition Frame {A} (target : string) (m : M A) : Prop :=
  forall w p, p <> target -> file_at (fs (fst (m w))) p = file_at (fs w) p.


Definition broken_world : World :=
  {| fs := {[ "/data/bib/JPEGImages/validation/0042-17.jpg" := File "JFIF" None;
              "/data/bib/Annotations/validation/0042-17.xml"
                := File "<annotation>" (Some example_annotation);
              "/data/bib/Annotations/validation/0099-1.xml"
                := File "<annotation>" (Some example_annotation);
              "/data/bib/Annotations/validation" := Dir ["0042-17.xml"; "0099-1.xml"] ]};
     stdout := [];
     calls := [] |}.

(** An annotation with no object, and one whose object has a label the
    table does not know. *)
Definition empty_world : World :=
  {| fs := {[ "/data/bib/JPEGImages/validation/0042-17.jpg" := File "JFIF" None;
              "/data/bib/Annotations/validation/0042-17.xml"
                := File "<annotation>" (Some (Elem "annotation" None [])) ]};
     stdout := [];
     calls := [] |}.

Definition stranger_annotation : Element :=
  Elem "annotation" None
    [ Elem "object" None [leaf "name" "bib"; bndbox "1" "2" "3" "4"];
      Elem "object" None [leaf "name" "stranger"; bndbox "1" "2" "3" "4"];
      Elem "object" None [leaf "name" "bib"] ].

Definition stranger_world : World :=
  {| fs := {[ "/data/bib/JPEGImages/validation/0042-17.jpg" := File "JFIF" None;
              "/data/bib/Annotations/validation/0042-17.xml"
                := File "<annotation>" (Some stranger_annotation) ]};
     stdout := [];
     calls := [] |}.

(** The first bytes of a JPEG file, FF D8 FF E0, and the small dataset
    with an image that starts with them. *)
Definition jpeg_magic : string :=
  String (ascii_of_nat 255) (String (ascii_of_nat 216)
    (String (ascii_of_nat 255) (String (ascii_of_nat 224) "JFIF"))).

Definition jpeg_world : World :=
  {| fs := {[ "/data/bib/JPEGImages/validation/0042-17.jpg" := File jpeg_magic None;
              "/data/bib/Annotations/validation/0042-17.xml"
                := File "<annotation>" (Some example_annotation);
              "/data/bib/Annotations/validation" := Dir ["0042-17.xml"] ]};
     stdout := [];
     calls := [] |}.


(** * Properties *)

(** ** Strings and paths *)

#[local] Arguments String.append !_ _ : simpl nomatch.

Section Strings.

Lemma split_cons sep s : exists piece rest, Str.split sep s = piece :: rest.
Proof.
  induction s as [|c s IH]; simpl; eauto.
  destruct (Ascii.eqb c sep); eauto.
  destruct IH as (p & r & ->); eauto.
Qed.

Lemma split_first_piece sep s : Str.item0 (Str.split sep s) = Str.before sep s.
Proof.
  induction s as [|c s IH]; simpl; [reflexivity|].
  destruct (Ascii.eqb c sep); [reflexivity|].
  destruct (split_cons sep s) as (p & r & E).
  rewrite E in *. simpl in *. now rewrite IH.
Qed.


Lemma before_contains sep c s :
  Str.contains c s = false -> Str.contains c (Str.before sep s) = false.
Proof.
  induction s as [|d s IH]; simpl; [reflexivity|].
  intros H. apply orb_false_iff in H as [Hd H].
  destruct (Ascii.eqb d sep); simpl; [reflexivity|].
  now rewrite Hd, IH.
Qed.

Lemma app_assoc' (a b c : string) : (a +:+ b) +:+ c = a +:+ b +:+ c.
Proof. induction a; simpl; congruence. Qed.

Lemma is_empty_app a b : Str.is_empty (a +:+ b) = Str.is_empty a && Str.is_empty b.
Proof. now destruct a. Qed.

Lemma startswith_app c a b :
  Str.startswith c (a +:+ b) = if Str.is_empty a then Str.startswith c b else Str.startswith c a.
Proof. now destruct a. Qed.

Lemma endswith_app c a b :
  Str.endswith c (a +:+ b) = if Str.is_empty b then Str.endswith c a else Str.endswith c b.
Proof.
  induction a as [|d a IH]; simpl.
  - now destruct b.
  - destruct (a +:+ b) eqn:E.
    + destruct a; [|discriminate]. simpl in E. now subst b.
    + rewrite IH. destruct b; [|reflexivity].
      simpl. destruct a; [discriminate|reflexivity].
Qed.

Lemma endswith_contains c s : Str.contains c s = false -> Str.endswith c s = false.
Proof.
  induction s as [|d s IH]; simpl; [reflexivity|].
  intros H. apply orb_false_iff in H as [Hd H].
  destruct s; [assumption|]. now apply IH.
Qed.

Lemma startswith_contains c s : Str.contains c s = false -> Str.startswith c s = false.
Proof. destruct s; simpl; [reflexivity|]. intros H. now apply orb_false_iff in H as [-> _]. Qed.

Lemma length_append (a b : string) :
  String.length (a +:+ b) = (String.length a + String.length b)%nat.
Proof. induction a as [|c a IH]; simpl; [reflexivity|]. now rewrite IH. Qed.

Lemma append_cancel_l (a b c : string) : a +:+ b = a +:+ c -> b = c.
Proof. induction a as [|d a IH]; simpl; [trivial|]. intros [= H]. auto. Qed.

Lemma append_cancel_r (c : string) : forall a b, a +:+ c = b +:+ c -> a = b.
Proof.
  induction a as [|d a IH]; intros [|e b] H; simpl in H.
  - reflexivity.
  - apply (f_equal String.length) in H. simpl in H. rewrite length_append in H. lia.
  - apply (f_equal String.length) in H. simpl in H. rewrite length_append in H. lia.
  - injection H as -> H. f_equal. now apply IH.
Qed.

Lemma append_not_self (a b : string) : Str.is_empty b = false -> a +:+ b <> a.
Proof.
  intros Hb H. apply (f_equal String.length) in H. rewrite length_append in H.
  destruct b; [discriminate|]. simpl in H. lia.
Qed.

End Strings.

Section Paths.

Import OsPath.

Lemma squeeze_startswith c s : Str.startswith c (squeeze s) = Str.startswith c s.
Proof.
  induction s as [|d s IH]; simpl; [reflexivity|].
  destruct (Ascii.eqb d "/") eqn:Ed; simpl; [|reflexivity].
  destruct (Str.startswith "/" s) eqn:Es; simpl; [|reflexivity].
  rewrite IH. apply Ascii.eqb_eq in Ed. subst d.
  destruct s as [|e s]; [discriminate|]. simpl in *.
  apply Ascii.eqb_eq in Es. now subst e.
Qed.

Lemma squeeze_is_empty s : Str.is_empty (squeeze s) = Str.is_empty s.
Proof.
  induction s as [|d s IH]; simpl; [reflexivity|].
  destruct (Ascii.eqb d "/" && Str.startswith "/" s) eqn:E; [|reflexivity].
  rewrite IH. apply andb_true_iff in E as [_ E]. now destruct s.
Qed.

(** Squeezing is a congruence for what is appended. *)
Lemma squeeze_app_l a t : squeeze (a +:+ t) = squeeze (squeeze a +:+ t).
Proof.
  induction a as [|c a IH]; simpl; [reflexivity|].
  destruct (Ascii.eqb c "/" && Str.startswith "/" a) eqn:E.
  - rewrite <- IH. apply andb_true_iff in E as [-> E].
    rewrite startswith_app. destruct a; [discriminate|]. simpl in *. now rewrite E.
  - simpl. rewrite <- IH.
    rewrite !startswith_app, squeeze_is_empty, squeeze_startswith.
    destruct (Str.is_empty a) eqn:Ea; [reflexivity|]. now rewrite E.
Qed.

Lemma same_path_app p q t : same_path p q -> same_path (p +:+ t) (q +:+ t).
Proof.
  unfold same_path. intros H.
  now rewrite (squeeze_app_l p), (squeeze_app_l q), H.
Qed.

(** A separator after a separator is no new component. *)
Lemma squeeze_sep_after p t :
  Str.endswith "/" p = true -> squeeze (p +:+ "/" +:+ t) = squeeze (p +:+ t).
Proof.
  induction p as [|c p IH]; simpl; [discriminate|].
  destruct p as [|d p].
  - intros Hc. apply Ascii.eqb_eq in Hc. subst c. reflexivity.
  - intros H. simpl in *. now rewrite (IH H).
Qed.

Lemma join2_nonempty path b : Str.is_empty path = false -> Str.is_empty (join2 path b) = false.
Proof.
  intros H. unfold join2. rewrite H. simpl.
  destruct b as [|c b]; simpl.
  - destruct (Str.endswith "/" path); rewrite is_empty_app, H; reflexivity.
  - destruct (Ascii.eqb c "/"); [reflexivity|].
    destruct (Str.endswith "/" path); rewrite is_empty_app, H; reflexivity.
Qed.

Lemma join2_same path b :
  Str.is_empty path = false -> Str.startswith "/" b = false ->
  same_path (join2 path b) (path +:+ "/" +:+ b).
Proof.
  intros Hp Hb. unfold join2, same_path. rewrite Hb, Hp. simpl.
  destruct (Str.endswith "/" path) eqn:E; [|reflexivity].
  exact (eq_sym (squeeze_sep_after path b E)).
Qed.

Lemma slashed_same l p q : same_path p q -> same_path (slashed p l) (slashed q l).
Proof.
  revert p q. induction l as [|c l IH]; intros p q H; simpl; [exact H|].
  apply IH. exact (same_path_app p q ("/" +:+ c) H).
Qed.

(** [join] puts one separator, up to repetition, before each relative
    component. *)
Lemma join_same a l :
  Str.is_empty a = false ->
  Forall (fun b => Str.startswith "/" b = false) l ->
  same_path (join a l) (slashed a l).
Proof.
  intros Ha Hl. revert a Ha. unfold join.
  induction Hl as [|b l Hb Hl IH]; intros a Ha; simpl; [reflexivity|].
  unfold same_path in *.
  rewrite (IH (join2 a b)) by now apply join2_nonempty.
  apply slashed_same, join2_same; assumption.
Qed.

End Paths.

Section PathResolution.

Import OsPath.

Lemma plain_name_spec s :
  plain_name s = true ->
  Str.is_empty s = false /\ Str.startswith "/" s = false /\ Str.endswith "/" s = false.
Proof.
  unfold plain_name. intros H. apply andb_true_iff in H as [H1 H2].
  apply negb_true_iff in H1, H2.
  auto using startswith_contains, endswith_contains.
Qed.

Lemma plain_dir_spec s :
  plain_dir s = true -> Str.is_empty s = false /\ Str.endswith "/" s = false.
Proof.
  unfold plain_dir. intros H. apply andb_true_iff in H as [H1 H2].
  now apply negb_true_iff in H1, H2.
Qed.

Lemma before_startswith c sep s :
  Str.startswith c s = false -> Str.startswith c (Str.before sep s) = false.
Proof.
  destruct s as [|d s]; simpl; [reflexivity|].
  destruct (Ascii.eqb d sep); simpl; auto.
Qed.

Lemma before_plain sep s :
  plain_name s = true -> Str.is_empty (Str.before sep s) = false ->
  plain_name (Str.before sep s) = true.
Proof.
  unfold plain_name. intros H He. apply andb_true_iff in H as [_ H].
  apply negb_true_iff in H. rewrite He. simpl.
  now rewrite before_contains.
Qed.

(** [join] on a clean directory and clean names is concatenation with
    one separator each. *)
Lemma join2_plain path b :
  plain_dir path = true -> plain_name b = true ->
  join2 path b = path +:+ "/" +:+ b /\ plain_dir (path +:+ "/" +:+ b) = true.
Proof.
  intros Hp Hb.
  apply plain_dir_spec in Hp as [Hp1 Hp2].
  apply plain_name_spec in Hb as (Hb1 & Hb2 & Hb3).
  split.
  - unfold join2. now rewrite Hb2, Hp1, Hp2.
  - unfold plain_dir. rewrite is_empty_app, Hp1. simpl.
    rewrite (endswith_app "/" path (String "/" b)). simpl.
    destruct b; [discriminate|]. now rewrite Hb3.
Qed.

Lemma endswith_sep p : Str.endswith "/" (p +:+ "/") = true.
Proof. now rewrite endswith_app. Qed.

(** The constant directories end with a separator, which [join] does not
    double. *)
Lemma join2_constant_dir a d b :
  plain_dir a = true -> plain_name d = true -> plain_name b = true ->
  join2 (join2 a (d +:+ "/")) b = (a +:+ "/" +:+ d) +:+ "/" +:+ b
  /\ plain_dir ((a +:+ "/" +:+ d) +:+ "/" +:+ b) = true.
Proof.
  intros Ha Hd Hb.
  destruct (join2_plain a d Ha Hd) as [_ Hp].
  destruct (join2_plain _ b Hp Hb) as [_ Hq]. split; [|exact Hq].
  apply plain_dir_spec in Ha as [Ha1 Ha2].
  pose proof (plain_name_spec d Hd) as (Hd1 & Hd2 & Hd3).
  apply plain_name_spec in Hb as (Hb1 & Hb2 & Hb3).
  assert (E : join2 a (d +:+ "/") = (a +:+ "/" +:+ d) +:+ "/").
  { unfold join2. rewrite startswith_app, Hd1, Hd2, Ha1, Ha2. simpl.
    now rewrite !app_assoc'. }
  rewrite E. unfold join2.
  now rewrite Hb2, endswith_sep, orb_true_r, !app_assoc'.
Qed.

Lemma contains_app c a b : Str.contains c (a +:+ b) = Str.contains c a || Str.contains c b.
Proof. induction a as [|d a IH]; simpl; [reflexivity|]. now rewrite IH, orb_assoc. Qed.

Lemma plain_name_ext s ext :
  plain_name s = true -> Str.contains "/" ext = false -> plain_name (s +:+ ext) = true.
Proof.
  unfold plain_name. intros H He. apply andb_true_iff in H as [H1 H2].
  apply negb_true_iff in H1, H2.
  now rewrite is_empty_app, H1, contains_app, H2, He.
Qed.

Lemma startswith_ext c s ext :
  Str.startswith c s = false -> Str.startswith c ext = false ->
  Str.startswith c (s +:+ ext) = false.
Proof. intros H He. rewrite startswith_app. now destruct (Str.is_empty s). Qed.

Lemma same_path_constant_dir root d rest :
  same_path ((root +:+ "/" +:+ (d +:+ "/")) +:+ "/" +:+ rest)
            (root +:+ "/" +:+ d +:+ "/" +:+ rest).
Proof.
  unfold same_path.
  replace ((root +:+ "/" +:+ (d +:+ "/")) +:+ "/" +:+ rest)
    with (((root +:+ "/" +:+ d) +:+ "/") +:+ "/" +:+ rest)
    by (now rewrite !app_assoc').
  rewrite (squeeze_sep_after _ rest (endswith_sep _)).
  now rewrite !app_assoc'.
Qed.

Lemma annotation_filename_same root name dataset :
  Str.is_empty root = false ->
  Str.startswith "/" dataset = false ->
  Str.startswith "/" name = false ->
  same_path (annotation_filename root name dataset) (spec_annotation_path root name dataset).
Proof.
  intros Hr Hd Hn. unfold annotation_filename, spec_annotation_path.
  etransitivity.
  - apply join_same; [exact Hr|].
    repeat constructor; auto using startswith_ext.
  - unfold slashed. cbn [fold_left].
    pose proof (same_path_constant_dir root "Annotations" dataset) as H.
    apply (same_path_app _ _ ("/" +:+ name +:+ ".xml")) in H.
    unfold same_path in *. rewrite !app_assoc' in *. exact H.
Qed.

Lemma image_filename_same root name dataset :
  Str.is_empty root = false ->
  Str.startswith "/" dataset = false ->
  Str.startswith "/" name = false ->
  same_path (image_filename root name dataset) (spec_image_path root name dataset).
Proof.
  intros Hr Hd Hn. unfold image_filename, spec_image_path.
  destruct (String.eqb dataset "training") eqn:E.
  - apply String.eqb_eq in E. subst dataset. rewrite split_first_piece.
    etransitivity.
    + apply join_same; [exact Hr|].
      repeat constructor; auto using startswith_ext, before_startswith.
    + unfold slashed. cbn [fold_left].
      pose proof (same_path_constant_dir root "JPEGImages" "training") as H.
      apply (same_path_app _ _ ("/" +:+ Str.before "-" name +:+ "/" +:+ name +:+ ".jpg")) in H.
      unfold same_path in *. rewrite !app_assoc' in *. exact H.
  - etransitivity.
    + apply join_same; [exact Hr|].
      repeat constructor; auto using startswith_ext.
    + unfold slashed. cbn [fold_left].
      pose proof (same_path_constant_dir root "JPEGImages" dataset) as H.
      apply (same_path_app _ _ ("/" +:+ name +:+ ".jpg")) in H.
      unfold same_path in *. rewrite !app_assoc' in *. exact H.
Qed.

Lemma annotation_filename_exact root name dataset :
  plain_dir root = true -> plain_name dataset = true -> plain_name name = true ->
  annotation_filename root name dataset = spec_annotation_path root name dataset.
Proof.
  intros Hr Hd Hn. unfold annotation_filename, spec_annotation_path, join.
  simpl fold_left.
  destruct (join2_constant_dir root "Annotations" dataset Hr eq_refl Hd) as [E Hp].
  change DIRECTORY_ANNOTATIONS with ("Annotations" +:+ "/"). rewrite E.
  destruct (join2_plain _ (name +:+ ".xml") Hp (plain_name_ext name ".xml" Hn eq_refl))
    as [-> _].
  now rewrite !app_assoc'.
Qed.

Lemma image_filename_exact root name dataset :
  plain_dir root = true -> plain_name dataset = true -> plain_name name = true ->
  String.eqb dataset "training" = false \/ Str.startswith "-" name = false ->
  image_filename root name dataset = spec_image_path root name dataset.
Proof.
  intros Hr Hd Hn Hx. unfold image_filename, spec_image_path, join.
  pose proof (plain_name_ext name ".jpg" Hn eq_refl) as Hj.
  destruct (join2_constant_dir root "JPEGImages" dataset Hr eq_refl Hd) as [E Hp].
  destruct (String.eqb dataset "training") eqn:Et; simpl fold_left;
    change DIRECTORY_IMAGES with ("JPEGImages" +:+ "/"); rewrite E.
  - destruct Hx as [Hx|Hx]; [discriminate|].
    apply String.eqb_eq in Et. subst dataset. rewrite split_first_piece.
    assert (Hb : plain_name (Str.before "-" name) = true).
    { apply before_plain; [exact Hn|].
      destruct name as [|c name]; [discriminate|]. simpl in *. now rewrite Hx. }
    destruct (join2_plain _ _ Hp Hb) as [-> Hq].
    destruct (join2_plain _ _ Hq Hj) as [-> _].
    now rewrite !app_assoc'.
  - destruct (join2_plain _ _ Hp Hj) as [-> _].
    now rewrite !app_assoc'.
Qed.


End PathResolution.

(** ** Binary64 division by the image size *)

Section Binary64.


Lemma digits2_bounds p :
  2 ^ (Zpos (digits2_pos p) - 1) <= Zpos p < 2 ^ Zpos (digits2_pos p).
Proof.
  induction p as [p IH|p IH|]; simpl digits2_pos.
  - rewrite Pos2Z.inj_succ, Z.pow_succ_r by lia.
    replace (Z.succ (Zpos (digits2_pos p)) - 1) with (Z.succ (Zpos (digits2_pos p) - 1)) by lia.
    rewrite Z.pow_succ_r by lia. lia.
  - rewrite Pos2Z.inj_succ, Z.pow_succ_r by lia.
    replace (Z.succ (Zpos (digits2_pos p)) - 1) with (Z.succ (Zpos (digits2_pos p) - 1)) by lia.
    rewrite Z.pow_succ_r by lia. lia.
  - simpl. lia.
Qed.

(** A mantissa below [2^k] has at most [k] digits. *)
Lemma Zdigits2_le q k : 0 <= q < 2 ^ k -> 0 <= k -> Zdigits2 q <= k.
Proof.
  intros [H0 Hq] Hk. destruct q as [|p|p]; simpl; [lia| |lia].
  pose proof (digits2_bounds p) as [Hl _].
  destruct (Z_le_gt_dec (Zpos (digits2_pos p)) k) as [|Hgt]; [assumption|].
  exfalso. assert (2 ^ k <= 2 ^ (Zpos (digits2_pos p) - 1)) by (apply Z.pow_le_mono_r; lia).
  lia.
Qed.

Lemma Zdigits2_upper q : 0 <= q -> q < 2 ^ Zdigits2 q.
Proof.
  intros H. destruct q as [|p|p]; simpl; [lia| |lia].
  apply digits2_bounds.
Qed.

(** Shifting right divides the mantissa. *)
Lemma shr_1_m mrs : 0 <= shr_m mrs -> shr_m (shr_1 mrs) = shr_m mrs / 2.
Proof.
  destruct mrs as [m r s]. simpl. intros H.
  destruct m as [|[p|p|]|p]; simpl; try reflexivity; try lia.
  - apply Z.div_unique with 1; lia.
  - apply Z.div_unique with 0; lia.
Qed.

Lemma iter_shr_1_m p : forall mrs,
  0 <= shr_m mrs -> shr_m (SpecFloat.iter_pos shr_1 p mrs) = shr_m mrs / 2 ^ Zpos p.
Proof.
  assert (Hnn : forall m, 0 <= shr_m m -> 0 <= shr_m (shr_1 m)).
  { intros m H. rewrite shr_1_m by assumption. apply Z.div_pos; lia. }
  assert (Hsq : forall k, 2 ^ Zpos k~0 = 2 ^ Zpos k * 2 ^ Zpos k).
  { intros k. rewrite <- Z.pow_add_r by lia. f_equal. lia. }
  induction p as [p IH|p IH|]; intros mrs H; simpl SpecFloat.iter_pos.
  - assert (H1 := Hnn _ H).
    assert (H2 : 0 <= shr_m (SpecFloat.iter_pos shr_1 p (shr_1 mrs))).
    { rewrite IH by assumption. apply Z.div_pos; lia. }
    rewrite IH, IH, shr_1_m by assumption.
    rewrite !Z.div_div by lia. f_equal.
    replace (Zpos p~1) with (Z.succ (Zpos p~0)) by lia.
    rewrite Z.pow_succ_r, Hsq by lia. lia.
  - assert (H2 : 0 <= shr_m (SpecFloat.iter_pos shr_1 p mrs)).
    { rewrite IH by assumption. apply Z.div_pos; lia. }
    rewrite IH, IH by assumption.
    rewrite Z.div_div by lia. now rewrite Hsq.
  - now rewrite shr_1_m.
Qed.

Lemma shr_record_of_loc_m m l : shr_m (shr_record_of_loc m l) = m.
Proof. now destruct l as [|[]]. Qed.

Lemma fexp64 k : SpecFloat.fexp prec emax k = Z.max (k - 53) (-1074).
Proof. reflexivity. Qed.

(** A mantissa of at most 53 digits is not shifted. *)
Lemma shr_fexp_small m e l :
  0 <= m < 2 ^ 53 -> -1074 <= e ->
  shr_fexp prec emax m e l = (shr_record_of_loc m l, e).
Proof.
  intros Hm He. unfold shr_fexp, shr. rewrite fexp64.
  pose proof (Zdigits2_le m 53 Hm ltac:(lia)).
  destruct (Z.max (Zdigits2 m + e - 53) (-1074) - e) eqn:E; try reflexivity. lia.
Qed.

(** Below one the first shift leaves at most 53 digits and an exponent
    of at most -53. *)
Lemma shr_fexp_below_one q e l :
  0 <= q -> -1074 <= e <= -53 -> q < 2 ^ (- e) ->
  0 <= shr_m (fst (shr_fexp prec emax q e l)) < 2 ^ 53
  /\ -1074 <= snd (shr_fexp prec emax q e l) <= -53.
Proof.
  intros Hq He Hlt.
  destruct (Z_lt_ge_dec q (2 ^ 53)) as [Hs|Hb].
  - rewrite shr_fexp_small by lia. simpl. rewrite shr_record_of_loc_m. lia.
  - pose proof (Zdigits2_le q (- e) ltac:(lia) ltac:(lia)) as Hd.
    pose proof (Zdigits2_upper q Hq) as Hu.
    assert (Hd54 : 54 <= Zdigits2 q).
    { destruct (Z_lt_ge_dec (Zdigits2 q) 54) as [Hlt'|]; [|lia].
      exfalso. assert (2 ^ Zdigits2 q <= 2 ^ 53) by (apply Z.pow_le_mono_r; lia). lia. }
    unfold shr_fexp, shr. rewrite fexp64.
    replace (Z.max (Zdigits2 q + e - 53) (-1074) - e) with (Zdigits2 q - 53) by lia.
    destruct (Zdigits2 q - 53) as [|p|p] eqn:Ep; try lia.
    simpl fst. simpl snd.
    rewrite iter_shr_1_m by (rewrite shr_record_of_loc_m; lia).
    rewrite shr_record_of_loc_m, <- Ep.
    split; [split|lia].
    + apply Z.div_pos; lia.
    + apply Z.div_lt_upper_bound; [lia|].
      rewrite <- Z.pow_add_r by lia.
      now replace (Zdigits2 q - 53 + 53) with (Zdigits2 q) by lia.
Qed.

Lemma round_nearest_even_bounds m l :
  m <= round_nearest_even m l <= m + 1.
Proof. destruct l as [|[]]; simpl; try lia. destruct (Z.even m); lia. Qed.


(** Rounding a quotient below one gives a float in [0, 1]. *)
Lemma binary_round_aux_unit q e l :
  0 <= q -> -1074 <= e <= -53 -> q < 2 ^ (- e) ->
  SFleb SF_zero (binary_round_aux prec emax false q e l) = true
  /\ SFleb (binary_round_aux prec emax false q e l) SF_one = true.
Proof.
  intros Hq He Hlt. unfold binary_round_aux.
  pose proof (shr_fexp_below_one q e l Hq He Hlt) as [Hm He1].
  destruct (shr_fexp prec emax q e l) as [mrs e1]. simpl in Hm, He1.
  pose proof (round_nearest_even_bounds (shr_m mrs) (loc_of_shr_record mrs)) as Hr.
  set (mr := round_nearest_even (shr_m mrs) (loc_of_shr_record mrs)) in *.
  destruct (Z_lt_ge_dec mr (2 ^ 53)) as [Hs|Hb].
  - rewrite shr_fexp_small by lia. simpl shr_m.
    destruct mr as [|m|m] eqn:Em; [split; reflexivity| |lia].
    replace (e1 <=? emax - prec) with true by (symmetry; apply Z.leb_le; change (emax - prec) with 971; lia).
    unfold SFleb, SFcompare, SF_zero, SF_one.
    split; [reflexivity|].
    destruct (Z.compare_spec e1 (-52)); solve [reflexivity | lia].
  - assert (Emr : mr = 2 ^ 53) by lia. rewrite Emr.
    unfold shr_fexp, shr. rewrite fexp64.
    change (Zdigits2 (2 ^ 53)) with 54.
    replace (Z.max (54 + e1 - 53) (-1074) - e1) with 1 by lia.
    simpl shr_m.
    replace (e1 + 1 <=? emax - prec) with true by (symmetry; apply Z.leb_le; change (emax - prec) with 971; lia).
    unfold SFleb, SFcompare, SF_zero, SF_one.
    split; [reflexivity|].
    destruct (Z.compare_spec (e1 + 1) (-52)); solve [reflexivity | lia].
Qed.


(** What a valid binary64 mantissa and exponent satisfy. *)
Lemma bounded_inv m e :
  bounded prec emax m e = true ->
  Zpos m < 2 ^ 53 /\ -1074 <= e
  /\ Z.max (Zpos (digits2_pos m) + e - 53) (-1074) = e.
Proof.
  unfold bounded, canonical_mantissa. rewrite fexp64.
  intros H. apply andb_true_iff in H as [H _]. apply Z.eqb_eq in H.
  pose proof (digits2_bounds m) as [_ Hu].
  repeat split; [|lia|exact H].
  assert (Zpos (digits2_pos m) <= 53) by lia.
  assert (2 ^ Zpos (digits2_pos m) <= 2 ^ 53) by (apply Z.pow_le_mono_r; lia).
  lia.
Qed.

(** A float strictly between 0 and 500, divided by 500. *)
Lemma SFdiv_below_500 m e :
  bounded prec emax m e = true ->
  e < -44 \/ (e = -44 /\ Zpos m < 8796093022208000) ->
  SFleb SF_zero (SFdiv prec emax (S754_finite false m e) SF_500) = true
  /\ SFleb (SFdiv prec emax (S754_finite false m e) SF_500) SF_one = true.
Proof.
  intros Hb Hlt. apply bounded_inv in Hb as (Hm & He & Hc).
  unfold SFdiv, SF_500, SFdiv_core_binary.
  change (Zdigits2 8796093022208000) with 53.
  rewrite fexp64. simpl Zdigits2.
  set (d := Zpos (digits2_pos m)) in *.
  set (e' := Z.min (Z.max (d + e - (53 + -44) - 53) (-1074)) (e - -44)).
  assert (He' : -1074 <= e' <= -53) by lia.
  assert (Hs : 0 < e - -44 - e') by lia.
  destruct (e - -44 - e') as [|s|s] eqn:Es; try lia.
  rewrite Z.shiftl_mul_pow2 by lia.
  pose proof (Z_div_mod (Zpos m * 2 ^ Zpos s) 8796093022208000 ltac:(lia)) as Hdiv.
  destruct (Z.div_eucl (Zpos m * 2 ^ Zpos s) 8796093022208000) as [q r].
  destruct Hdiv as [Hq Hr]. simpl xorb.
  assert (Hpow : 2 ^ (- e') = 2 ^ Zpos s * 2 ^ (-44 - e)).
  { rewrite <- Z.pow_add_r by lia. f_equal. lia. }
  assert (Hq0 : 0 <= q) by nia.
  apply binary_round_aux_unit; [exact Hq0|exact He'|].
  rewrite Hpow.
  assert (Hps : 0 < 2 ^ Zpos s) by (apply Z.pow_pos_nonneg; lia).
  destruct Hlt as [Hlt|[-> Hlt]].
  - assert (2 <= 2 ^ (-44 - e)).
    { change 2 with (2 ^ 1) at 1. apply Z.pow_le_mono_r; lia. }
    change (2 ^ 53) with 9007199254740992 in Hm. nia.
  - change (2 ^ (-44 - -44)) with 1. nia.
Qed.

(** Every binary64 number from 0 to 500, divided by 500, is in [0, 1]. *)
Lemma SFdiv_500_unit x :
  valid_binary x = true -> x <> S754_nan ->
  SFltb SF_500 x = false -> SFltb x SF_zero = false ->
  SFleb SF_zero (SFdiv prec emax x SF_500) = true
  /\ SFleb (SFdiv prec emax x SF_500) SF_one = true.
Proof.
  intros Hv Hn H500 H0.
  destruct x as [s|s| |s m e].
  - destruct s; split; reflexivity.
  - destruct s; discriminate.
  - contradiction.
  - destruct s; [discriminate|].
    change (bounded prec emax m e = true) in Hv.
    unfold SFltb, SFcompare, SF_500 in H500.
    destruct (Z.compare_spec (-44) e) as [He|He|He]; [|discriminate|].
    + subst e. change (Pos.compare_cont Eq ?a ?b) with (Pos.compare a b) in H500.
      destruct (Pos.compare_spec 8796093022208000 m) as [Hm|Hm|Hm]; [|discriminate|].
      * subst m. split; vm_compute; reflexivity.
      * apply SFdiv_below_500; [exact Hv|]. right. split; [reflexivity|exact Hm].
    + apply SFdiv_below_500; [exact Hv|]. left. clear - He. lia.
Qed.

Lemma SFcompare_refl x : x <> S754_nan -> SFcompare x x = Some Eq.
Proof.
  destruct x as [s|s| |s m e]; try contradiction; intros _; simpl.
  - reflexivity.
  - now destruct s.
  - rewrite Z.compare_refl.
    change (Pos.compare_cont Eq m m) with (Pos.compare m m).
    rewrite Pos.compare_refl. now destruct s.
Qed.

Lemma is_nan_spec x : PrimFloat.is_nan x = true <-> Prim2SF x = S754_nan.
Proof.
  unfold PrimFloat.is_nan. rewrite FloatAxioms.eqb_spec. unfold SFeqb. split.
  - intros H. destruct (Prim2SF x) eqn:E; try reflexivity;
      rewrite SFcompare_refl in H by discriminate; discriminate.
  - now intros ->.
Qed.

Lemma is_nan_div x y : PrimFloat.is_nan x = true -> PrimFloat.is_nan (x / y) = true.
Proof.
  rewrite !is_nan_spec, FloatAxioms.div_spec. now intros ->.
Qed.

(** The same on primitive floats, through their specification. *)
Lemma div_500_unit (x : float) :
  PrimFloat.is_nan x = false ->
  (500 <? x)%float = false -> (x <? 0)%float = false ->
  (0 <=? x / 500)%float = true /\ (x / 500 <=? 1)%float = true.
Proof.
  intros Hn H500 H0.
  rewrite FloatAxioms.ltb_spec in H500, H0.
  rewrite !FloatAxioms.leb_spec, FloatAxioms.div_spec.
  replace (Prim2SF 500) with SF_500 in * by (vm_compute; reflexivity).
  replace (Prim2SF 0) with SF_zero in * by (vm_compute; reflexivity).
  replace (Prim2SF 1) with SF_one by (vm_compute; reflexivity).
  apply SFdiv_500_unit; auto using Prim2SF_valid.
  intros E. apply is_nan_spec in E. congruence.
Qed.

End Binary64.

(** ** The loader *)

Section Loader.

Context (py : pyversion) (BIB_LABELS : gmap string Z).

Local Open Scope py_scope.

(** After clamping nothing exceeds 500: the comparison of line 114 is
    made on the clamped values. *)
Lemma clamp_not_above (raw : float) (i : nat) :
  (i < 2)%nat -> Num.gt (clamp raw i) (Int 500) = false.
Proof.
  intros Hi. unfold clamp.
  assert (E : IMAGE_SHAPE_at i = 500) by (destruct i as [|[|i]]; [reflexivity..|lia]).
  rewrite E. unfold Num.max, Num.min, Num.gt.
  destruct (Num.lt (Int 500) (Float raw)) eqn:E1.
  - reflexivity.
  - destruct (Num.lt (Float raw) (Int 0)) eqn:E2; [reflexivity|exact E1].
Qed.

(** The clamped value is 500, 0 or the raw value itself. *)
Lemma clamp_cases (raw : float) (i : nat) :
  (i < 2)%nat ->
  (Num.lt (Int 500) (Float raw) = true /\ clamp raw i = Int 500)
  \/ (Num.lt (Int 500) (Float raw) = false /\ Num.lt (Float raw) (Int 0) = true
      /\ clamp raw i = Int 0)
  \/ (Num.lt (Int 500) (Float raw) = false /\ Num.lt (Float raw) (Int 0) = false
      /\ clamp raw i = Float raw).
Proof.
  intros Hi. unfold clamp.
  assert (E : IMAGE_SHAPE_at i = 500) by (destruct i as [|[|i]]; [reflexivity..|lia]).
  rewrite E. unfold Num.max, Num.min, Num.gt.
  destruct (Num.lt (Int 500) (Float raw)) eqn:E1.
  - left. split; reflexivity.
  - destruct (Num.lt (Float raw) (Int 0)) eqn:E2; [right; left|right; right]; auto.
Qed.

Ltac step_lift :=
  match goal with
  | |- context [match ?r with Ok _ => _ | Raise _ => _ end] =>
      let E := fresh "E" in destruct r eqn:E; cbv beta iota
  end.

(** The loop body is a function of the object: it touches neither the
    files nor the console, the warning of line 115 included. *)
Lemma process_object_row name acc obj w :
  process_object py BIB_LABELS name acc obj w
  = (w, let? row := object_row py BIB_LABELS obj in Ok (push acc row)).
Proof.
  unfold process_object, object_row, normalized, bind, rbind, lift, ret.
  repeat (step_lift; [|reflexivity]).
  rewrite !clamp_not_above by lia. cbv beta iota. simpl orb. cbv beta iota.
  repeat (step_lift; [|reflexivity]). reflexivity.
Qed.

Lemma for_each_pure {A S} (body : S -> A -> M S) (f : S -> A -> result S) l :
  (forall s x w, body s x w = (w, f s x)) ->
  forall s w, for_each l s body w = (w, rfor_each l s f).
Proof.
  intros Hb. induction l as [|x l IH]; intros s w; simpl; [reflexivity|].
  unfold bind, rbind. rewrite Hb. destruct (f s x); auto.
Qed.

Lemma objects_loop name objs acc w :
  for_each objs acc (process_object py BIB_LABELS name) w
  = (w, rfor_each objs acc (add_object py BIB_LABELS)).
Proof. apply for_each_pure. intros. apply process_object_row. Qed.

Lemma rfor_each_invariant {A S} (I : nat -> S -> Prop) (f : S -> A -> result S) l :
  (forall n s x s', I n s -> f s x = Ok s' -> I (Datatypes.S n) s') ->
  forall n s s', I n s -> rfor_each l s f = Ok s' -> I (n + length l)%nat s'.
Proof.
  intros Hf. induction l as [|x l IH]; intros n s s' Hs; simpl.
  - intros [= <-]. now rewrite Nat.add_0_r.
  - unfold rbind. destruct (f s x) as [s1|e] eqn:E; [|discriminate].
    intros H. replace (n + Datatypes.S (length l))%nat with (Datatypes.S n + length l)%nat by lia.
    eapply IH; [|exact H]. eapply Hf; eauto.
Qed.

Lemma read_spec path w :
  gfile.read py path w
  = (logged w (CRead path),
     match fs w !! path with
     | Some (File bytes _) => if decodes py bytes then Ok bytes else Raise UnicodeError
     | _ => Raise IOError
     end).
Proof.
  unfold gfile.read, bind, log, get_fs, ret, raise. simpl.
  destruct (fs w !! path) as [[?|bytes ?]|]; try reflexivity.
  now destruct (decodes py bytes).
Qed.

Lemma ET_parse_spec path w :
  ET_parse path w
  = (logged w (CParse path),
     match fs w !! path with
     | Some (File _ (Some root)) => Ok root
     | Some (File _ None) => Raise ParseError
     | _ => Raise IOError
     end).
Proof.
  unfold ET_parse, bind, log, get_fs, ret, raise. simpl.
  now destruct (fs w !! path) as [[?|? [?|]]|].
Qed.

(** The loader as a function of the two files it opens. *)
Lemma _process_image_spec directory name dataset w :
  _process_image py BIB_LABELS directory name dataset w
  = match fs w !! image_filename directory name dataset with
    | Some (File image _) =>
        let w1 := logged w (CRead (image_filename directory name dataset)) in
        let w2 := logged w1 (CParse (annotation_filename directory name dataset)) in
        if decodes py image then
          match fs w !! annotation_filename directory name dataset with
          | Some (File _ (Some root)) =>
              (w2, let? a := rfor_each (ET.findall "object" root) no_annotations (add_object py BIB_LABELS) in
                   Ok (image, a))
          | Some (File _ None) => (w2, Raise ParseError)
          | _ => (w2, Raise IOError)
          end
        else (w1, Raise UnicodeError)
    | _ => (logged w (CRead (image_filename directory name dataset)), Raise IOError)
    end.
Proof.
  unfold _process_image, bind. rewrite read_spec.
  destruct (fs w !! image_filename directory name dataset) as [[?|img xml]|];
    try reflexivity.
  destruct (decodes py img); [|reflexivity].
  rewrite ET_parse_spec. simpl fs.
  destruct (fs w !! annotation_filename directory name dataset) as [[?|bytes [root|]]|];
    try reflexivity.
  rewrite objects_loop. unfold rbind, ret.
  now destruct (rfor_each _ _ _).
Qed.

(** A successful load, taken apart: the image was read at the image
    path, the annotation parsed at the annotation path, and the loop ran
    over the [object] elements of its root. *)
Lemma _process_image_ok directory name dataset w w' image a :
  _process_image py BIB_LABELS directory name dataset w = (w', Ok (image, a)) ->
  exists xml bytes root,
    fs w !! image_filename directory name dataset = Some (File image xml)
    /\ fs w !! annotation_filename directory name dataset = Some (File bytes (Some root))
    /\ rfor_each (ET.findall "object" root) no_annotations (add_object py BIB_LABELS) = Ok a
    /\ fs w' = fs w /\ stdout w' = stdout w
    /\ calls w' = calls w ++ [CRead (image_filename directory name dataset);
                               CParse (annotation_filename directory name dataset)].
Proof.
  rewrite _process_image_spec.
  destruct (fs w !! image_filename directory name dataset) as [[?|img xml]|] eqn:E1;
    try discriminate.
  destruct (decodes py img); [|discriminate].
  destruct (fs w !! annotation_filename directory name dataset) as [[?|bytes [root|]]|] eqn:E2;
    try discriminate.
  destruct (rfor_each _ _ _) as [acc|] eqn:E3; [|discriminate].
  intros [= <- <- <-]. exists xml, bytes, root. simpl.
  rewrite <- app_assoc. auto 10.
Qed.

(** The loader prints nothing and changes no file, whatever it returns. *)
Lemma _process_image_quiet directory name dataset w :
  let w' := fst (_process_image py BIB_LABELS directory name dataset w) in
  stdout w' = stdout w /\ fs w' = fs w.
Proof.
  rewrite _process_image_spec.
  destruct (fs w !! image_filename directory name dataset) as [[?|img xml]|];
    simpl; auto.
  destruct (decodes py img); simpl; auto.
  destruct (fs w !! annotation_filename directory name dataset) as [[?|bytes [root|]]|];
    simpl; auto.
Qed.

(** The calls of the loader: the read of the image, and with an image
    that is read, the parse of the annotation. *)
Lemma _process_image_calls directory name dataset w :
  let image := image_filename directory name dataset in
  let annotation := annotation_filename directory name dataset in
  calls (fst (_process_image py BIB_LABELS directory name dataset w))
  = calls w ++ CRead image
      :: match fs w !! image with
         | Some (File bytes _) => if decodes py bytes then [CParse annotation] else []
         | _ => []
         end.
Proof.
  intros image annotation. rewrite _process_image_spec. fold image annotation.
  destruct (fs w !! image) as [[?|img xml]|]; try reflexivity.
  destruct (decodes py img); [|reflexivity].
  destruct (fs w !! annotation) as [[?|bytes [root|]]|]; cbn [fst calls logged];
    now rewrite <- app_assoc.
Qed.

Lemma object_row_arity obj box id text d t :
  object_row py BIB_LABELS obj = Ok (box, id, text, d, t) -> length box = 4%nat.
Proof.
  unfold object_row, rbind.
  repeat (step_lift; [|discriminate]).
  now intros [= <- _ _ _ _].
Qed.

Lemma add_object_aligned n acc obj acc' :
  aligned n acc -> add_object py BIB_LABELS acc obj = Ok acc' -> aligned (Datatypes.S n) acc'.
Proof.
  unfold add_object, rbind.
  destruct (object_row py BIB_LABELS obj) as [[[[[box id] text] d] t]|] eqn:E; [|discriminate].
  intros (H1 & H2 & H3 & H4 & H5 & H6) [= <-]. unfold aligned. simpl.
  rewrite !length_app, H1, H2, H3, H4, H5. simpl.
  repeat split; try lia.
  apply Forall_app. split; [exact H6|].
  constructor; [|constructor]. eapply object_row_arity, E.
Qed.

Lemma objects_aligned objs a :
  rfor_each objs no_annotations (add_object py BIB_LABELS) = Ok a ->
  aligned (length objs) a.
Proof.
  intros H.
  apply (rfor_each_invariant aligned (add_object py BIB_LABELS) objs
           add_object_aligned 0%nat no_annotations a); [|exact H].
  unfold aligned. simpl. repeat split; constructor.
Qed.

End Loader.

(** ** The encoder *)

Section Encoder.

Local Open Scope py_scope.

Lemma transpose_boxes boxes : forall xmin ymin xmax ymax,
  Forall (fun b => length b = 4%nat) boxes ->
  rfor_each boxes (xmin, ymin, xmax, ymax) check_box
  = Ok (xmin ++ column 0 boxes, ymin ++ column 1 boxes,
        xmax ++ column 2 boxes, ymax ++ column 3 boxes).
Proof.
  induction boxes as [|b boxes IH]; intros xmin ymin xmax ymax H; simpl.
  - now rewrite !app_nil_r.
  - inversion H as [|? ? Hb Hbs]; subst.
    destruct b as [|p0 [|p1 [|p2 [|p3 [|? ?]]]]]; try discriminate.
    unfold rbind, check_box. simpl. rewrite IH by exact Hbs.
    now rewrite <- !app_assoc.
Qed.

Lemma reject_box boxes : forall ls,
  Exists (fun b => length b <> 4%nat) boxes ->
  rfor_each boxes ls check_box = Raise AssertionError.
Proof.
  induction boxes as [|b boxes IH]; intros ls H; [inversion H|].
  simpl. unfold rbind, check_box at 1.
  destruct (length b =? 4)%nat eqn:E; simpl.
  - apply IH. inversion H as [? ? Hb|]; subst; [|assumption].
    apply Nat.eqb_eq in E. contradiction.
  - reflexivity.
Qed.

(** On boxes of four coordinates the encoder returns the record whose
    sequences are the columns of the box list, the first column under
    [xmin], the second under [ymin], the third under [xmax], the fourth
    under [ymax]. *)
Lemma _convert_to_example_columns image labels labels_text boxes difficult truncated :
  Forall (fun b => length b = 4%nat) boxes ->
  _convert_to_example image labels labels_text boxes difficult truncated
  = Ok {| image_height := 500; image_width := 500; image_channels := 3;
          image_shape := [500; 500; 3];
          bbox_xmin := float_feature (column 0 boxes);
          bbox_xmax := float_feature (column 2 boxes);
          bbox_ymin := float_feature (column 1 boxes);
          bbox_ymax := float_feature (column 3 boxes);
          bbox_label := labels;
          bbox_label_text := labels_text;
          bbox_difficult := difficult;
          bbox_truncated := truncated;
          image_format := "JPEG";
          image_encoded := image |}.
Proof.
  intros H. unfold _convert_to_example.
  now rewrite transpose_boxes.
Qed.

Lemma _convert_to_example_asserts image labels labels_text boxes difficult truncated :
  Exists (fun b => length b <> 4%nat) boxes ->
  _convert_to_example image labels labels_text boxes difficult truncated
  = Raise AssertionError.
Proof.
  intros H. unfold _convert_to_example.
  now rewrite reject_box.
Qed.

Lemma column_length i boxes : length (float_feature (column i boxes)) = length boxes.
Proof. unfold float_feature, column. now rewrite !length_map. Qed.

End Encoder.

(** ** The driver *)

Section Driver.

Context (py : pyversion) (BIB_LABELS : gmap string Z)
        (SerializeToString : Example -> string) (frame : string -> string).

Local Open Scope py_scope.

Lemma Exists_spec path w :
  gfile.Exists path w = (logged w (CExists path), Ok (bool_decide (is_Some (fs w !! path)))).
Proof. reflexivity. Qed.

Lemma MakeDirs_spec path w :
  gfile.MakeDirs path w
  = match fs w !! path with
    | None => ({| fs := <[path := Dir []]> (fs w); stdout := stdout w;
                  calls := calls w ++ [CMakeDirs path] |}, Ok tt)
    | Some (Dir _) => (logged w (CMakeDirs path), Ok tt)
    | Some (File _ _) => (logged w (CMakeDirs path), Raise IOError)
    end.
Proof.
  unfold gfile.MakeDirs, bind, log, get_fs, set_fs, ret, raise. simpl.
  now destruct (fs w !! path) as [[?|? ?]|].
Qed.

Lemma listdir_spec path w :
  listdir path w
  = (logged w (CListdir path),
     match fs w !! path with
     | Some (Dir entries) => Ok entries
     | _ => Raise IOError
     end).
Proof.
  unfold listdir, bind, log, get_fs, ret, raise. simpl.
  now destruct (fs w !! path) as [[?|? ?]|].
Qed.

Lemma enumerate_identifiers_spec dataset_dir dataset w :
  enumerate_identifiers dataset_dir dataset w
  = (logged w (CListdir (OsPath.join dataset_dir [DIRECTORY_ANNOTATIONS; dataset])),
     match fs w !! OsPath.join dataset_dir [DIRECTORY_ANNOTATIONS; dataset] with
     | Some (Dir entries) => Ok (identifiers entries)
     | _ => Raise IOError
     end).
Proof.
  unfold enumerate_identifiers, bind. rewrite listdir_spec.
  now destruct (fs w !! _) as [[?|? ?]|].
Qed.

Lemma writer_open_spec path w :
  writer_open path w
  = match fs w !! path with
    | Some (Dir _) => (logged w (COpenWriter path), Raise IOError)
    | _ => ({| fs := <[path := File EmptyString None]> (fs w); stdout := stdout w;
               calls := calls w ++ [COpenWriter path] |}, Ok tt)
    end.
Proof.
  unfold writer_open, bind, log, get_fs, set_fs, ret, raise. simpl.
  now destruct (fs w !! path) as [[?|? ?]|].
Qed.

Lemma writer_write_spec path record w :
  writer_write frame path record w
  = match fs w !! path with
    | Some (File bytes _) =>
        ({| fs := <[path := File (bytes +:+ frame record) None]> (fs w);
            stdout := stdout w; calls := calls w ++ [CWrite path] |}, Ok tt)
    | _ => (logged w (CWrite path), Raise IOError)
    end.
Proof.
  unfold writer_write, bind, log, get_fs, set_fs, ret, raise. simpl.
  now destruct (fs w !! path) as [[?|? ?]|].
Qed.

(** The run on a world that has the output file. *)
Lemma run_skip dataset_dir output_dir name dataset w :
  is_Some (fs w !! _get_output_filename output_dir dataset name) ->
  run py BIB_LABELS SerializeToString frame dataset_dir output_dir name dataset w
  = ({| fs := match fs w !! output_dir with
              | None => <[output_dir := Dir []]> (fs w)
              | Some _ => fs w
              end;
        stdout := stdout w ++ [skip_message];
        calls := calls w ++ CExists output_dir
                   :: match fs w !! output_dir with
                      | None => [CMakeDirs output_dir]
                      | Some _ => []
                      end
                   ++ [CExists (_get_output_filename output_dir dataset name)] |},
     Ok tt).
Proof.
  intros Ht. unfold run, bind. rewrite Exists_spec.
  destruct (fs w !! output_dir) as [c|] eqn:Ed.
  - rewrite bool_decide_eq_true_2 by eauto. simpl.
    rewrite bool_decide_eq_true_2 by exact Ht.
    unfold print, stdout_write, skip_message. simpl.
    now rewrite <- app_assoc.
  - rewrite bool_decide_eq_false_2 by (intros [? ?]; discriminate).
    change (negb false) with true. cbv beta iota. rewrite MakeDirs_spec. simpl fs. rewrite Ed.
    rewrite Exists_spec. simpl fs.
    rewrite bool_decide_eq_true_2.
    + unfold print, stdout_write, skip_message. simpl.
      now rewrite <- !app_assoc.
    + simpl fs. rewrite lookup_insert. case_decide; eauto.
Qed.

Lemma keeps_same_fs w w' : fs w' = fs w -> keeps w w'.
Proof. intros E p. now rewrite E. Qed.

Lemma keeps_insert w w' k v : fs w' = <[k := v]> (fs w) -> keeps w w'.
Proof. intros E p H. rewrite E, lookup_insert. case_decide; eauto. Qed.

Lemma Keeps_ret {A} (a : A) : Keeps (ret a).
Proof. intros w p. auto. Qed.

Lemma Keeps_lift {A} (r : result A) : Keeps (lift r).
Proof. intros w p. auto. Qed.

Lemma Keeps_bind {A B} (m : M A) (k : A -> M B) :
  Keeps m -> (forall a, Keeps (k a)) -> Keeps (bind m k).
Proof.
  intros Hm Hk w p Hp. unfold bind. specialize (Hm w p Hp).
  destruct (m w) as [w' [a|e]]; simpl in *; [|exact Hm].
  now apply Hk.
Qed.

Lemma Keeps_for_each {A S} (body : S -> A -> M S) l :
  (forall s x, Keeps (body s x)) -> forall s, Keeps (for_each l s body).
Proof.
  intros Hb. induction l as [|x l IH]; intros s; simpl.
  - apply Keeps_ret.
  - apply Keeps_bind; auto.
Qed.

Lemma Keeps_stdout_write s : Keeps (stdout_write s).
Proof. intros w p. auto. Qed.

Lemma Keeps_Exists path : Keeps (gfile.Exists path).
Proof. intros w. rewrite Exists_spec. now apply keeps_same_fs. Qed.

Lemma Keeps_MakeDirs path : Keeps (gfile.MakeDirs path).
Proof.
  intros w. rewrite MakeDirs_spec.
  destruct (fs w !! path) as [[?|? ?]|]; simpl;
    solve [now apply keeps_same_fs | now eapply keeps_insert].
Qed.

Lemma Keeps_enumerate dataset_dir dataset : Keeps (enumerate_identifiers dataset_dir dataset).
Proof. intros w. rewrite enumerate_identifiers_spec. now apply keeps_same_fs. Qed.

Lemma Keeps_writer_open path : Keeps (writer_open path).
Proof.
  intros w. rewrite writer_open_spec.
  destruct (fs w !! path) as [[?|? ?]|]; simpl;
    solve [now apply keeps_same_fs | now eapply keeps_insert].
Qed.

Lemma Keeps_writer_write path record : Keeps (writer_write frame path record).
Proof.
  intros w. rewrite writer_write_spec.
  destruct (fs w !! path) as [[?|? ?]|]; simpl;
    solve [now apply keeps_same_fs | now eapply keeps_insert].
Qed.

Lemma Keeps__process_image directory name dataset :
  Keeps (_process_image py BIB_LABELS directory name dataset).
Proof.
  intros w. apply keeps_same_fs.
  apply (_process_image_quiet py BIB_LABELS directory name dataset w).
Qed.

Lemma Keeps__add_to_tfrecord dataset_dir dataset name writer :
  Keeps (_add_to_tfrecord py BIB_LABELS SerializeToString frame
                          dataset_dir dataset name writer).
Proof.
  unfold _add_to_tfrecord.
  apply Keeps_bind; [apply Keeps__process_image|]. intros [image a].
  apply Keeps_bind; [apply Keeps_lift|]. intros ex.
  apply Keeps_writer_write.
Qed.

Lemma Keeps_run dataset_dir output_dir name dataset :
  Keeps (run py BIB_LABELS SerializeToString frame dataset_dir output_dir name dataset).
Proof.
  unfold run.
  apply Keeps_bind; [apply Keeps_Exists|]. intros e.
  apply Keeps_bind; [destruct e; [apply Keeps_ret|apply Keeps_MakeDirs]|]. intros _.
  apply Keeps_bind; [apply Keeps_Exists|]. intros [|]; [apply Keeps_stdout_write|].
  apply Keeps_bind; [apply Keeps_enumerate|]. intros filenames.
  apply Keeps_bind; [apply Keeps_writer_open|]. intros _.
  apply Keeps_bind; [|intros _; apply Keeps_stdout_write].
  apply Keeps_for_each. intros i filename.
  apply Keeps_bind; [apply Keeps_stdout_write|]. intros _.
  apply Keeps_bind; [apply Keeps__add_to_tfrecord|]. intros _.
  apply Keeps_ret.
Qed.

Lemma bind_ok {A B} (m : M A) (k : A -> M B) w w' b :
  bind m k w = (w', Ok b) ->
  exists a w1, m w = (w1, Ok a) /\ k a w1 = (w', Ok b).
Proof.
  unfold bind. destruct (m w) as [w1 [a|e]]; [eauto|discriminate].
Qed.

(** A run that completes leaves the output file and its directory in
    place. *)
Lemma run_leaves_output dataset_dir output_dir name dataset w w' :
  run py BIB_LABELS SerializeToString frame dataset_dir output_dir name dataset w
  = (w', Ok tt) ->
  is_Some (fs w' !! _get_output_filename output_dir dataset name)
  /\ is_Some (fs w' !! output_dir).
Proof.
  set (target := _get_output_filename output_dir dataset name).
  unfold run. fold target. intros H.
  apply bind_ok in H as (e & w1 & H1 & H).
  rewrite Exists_spec in H1. injection H1 as <- <-.
  apply bind_ok in H as ([] & w2 & H2 & H).
  assert (Hdir : is_Some (fs w2 !! output_dir)).
  { destruct (bool_decide (is_Some (fs w !! output_dir))) eqn:Ed.
    - injection H2 as <-. now apply bool_decide_eq_true_1 in Ed.
    - change (negb false) with true in H2. cbv beta iota in H2.
      rewrite MakeDirs_spec in H2. simpl fs in H2.
      destruct (fs w !! output_dir) as [[?|? ?]|] eqn:Ef; injection H2 as <-; simpl;
        rewrite ?lookup_insert_eq, ?Ef; eauto. }
  clear H2.
  apply bind_ok in H as (e & w3 & H3 & H).
  rewrite Exists_spec in H3. injection H3 as <- <-.
  destruct (bool_decide (is_Some (fs w2 !! target))) eqn:Et.
  - unfold print, stdout_write in H. injection H as <-. simpl.
    apply bool_decide_eq_true_1 in Et. auto.
  - apply bind_ok in H as (filenames & w4 & H4 & H).
    rewrite enumerate_identifiers_spec in H4.
    assert (E4 : fs w4 = fs w2) by (now injection H4 as <- _).
    clear H4.
    apply bind_ok in H as ([] & w5 & H5 & H).
    rewrite writer_open_spec, E4 in H5.
    assert (E5 : fs w5 = <[target := File EmptyString None]> (fs w2)).
    { destruct (fs w2 !! target) as [[?|? ?]|]; [discriminate|..];
        now injection H5 as <-. }
    clear H5.
    apply bind_ok in H as (n & w6 & H6 & H).
    assert (Hk : keeps w5 w6).
    { match type of H6 with
      | for_each ?l ?s ?body _ = _ =>
          pose proof (Keeps_for_each body l) as Hk
      end.
      specialize (Hk ltac:(intros i filename;
                           apply Keeps_bind; [apply Keeps_stdout_write|]; intros _;
                           apply Keeps_bind; [apply Keeps__add_to_tfrecord|]; intros _;
                           apply Keeps_ret) 0%nat w5).
      now rewrite H6 in Hk. }
    unfold print, stdout_write in H. injection H as <-. simpl.
    split; apply Hk; rewrite E5, lookup_insert; case_decide; eauto; congruence.
Qed.

End Driver.

(** ** The optional flags and the boxes of one object *)

Section Objects.

Context (py : pyversion) (BIB_LABELS : gmap string Z).

Local Open Scope py_scope.

(** A flag element that is missing counts 0. *)
Lemma flag_missing t obj : ET.find t obj = None -> flag py t obj = Ok 0.
Proof. intros H. unfold flag, ET.find_truth. now rewrite H. Qed.

(** A flag element without child elements counts 0 whatever its text:
    the test of lines 100 and 104 is on the element's length. *)
Lemma flag_leaf t obj tag text :
  ET.find t obj = Some (Elem tag text []) -> flag py t obj = Ok 0.
Proof. intros H. unfold flag, ET.find_truth. now rewrite H. Qed.

(** Only a flag element with child elements has its text read. *)
Lemma flag_with_children t obj e :
  ET.find t obj = Some e -> ET.children e <> [] ->
  flag py t obj = Num.int_of py (ET.text e).
Proof.
  intros H Hc. unfold flag, ET.find_truth, ET.truth. rewrite H.
  destruct (ET.children e); [contradiction|reflexivity].
Qed.

(** The coordinates of a row are the four raw values, clamped and
    divided, in the order ymin, xmin, ymax, xmax. *)
Lemma object_row_box obj box id text d t :
  object_row py BIB_LABELS obj = Ok (box, id, text, d, t) ->
  exists ymin xmin ymax xmax b0 b1 b2 b3,
    coordinate py "ymin" (ET.find "bndbox" obj) = Ok ymin
    /\ coordinate py "xmin" (ET.find "bndbox" obj) = Ok xmin
    /\ coordinate py "ymax" (ET.find "bndbox" obj) = Ok ymax
    /\ coordinate py "xmax" (ET.find "bndbox" obj) = Ok xmax
    /\ normalized py ymin 0 = Ok b0 /\ normalized py xmin 1 = Ok b1
    /\ normalized py ymax 0 = Ok b2 /\ normalized py xmax 1 = Ok b3
    /\ box = [b0; b1; b2; b3].
Proof.
  unfold object_row, rbind.
  destruct (ET.text_of _) as [label|]; [|discriminate].
  destruct (label_id _ _) as [i|]; [|discriminate].
  destruct (encode_ascii _) as [tx|]; [|discriminate].
  destruct (flag py "difficult" obj) as [fd|]; [|discriminate].
  destruct (flag py "truncated" obj) as [ft|]; [|discriminate].
  destruct (coordinate py "ymin" _) as [ymin|]; [|discriminate].
  destruct (coordinate py "xmin" _) as [xmin|]; [|discriminate].
  destruct (coordinate py "ymax" _) as [ymax|]; [|discriminate].
  destruct (coordinate py "xmax" _) as [xmax|]; [|discriminate].
  destruct (normalized py ymin 0) as [b0|] eqn:E0; [|discriminate].
  destruct (normalized py xmin 1) as [b1|] eqn:E1; [|discriminate].
  destruct (normalized py ymax 0) as [b2|] eqn:E2; [|discriminate].
  destruct (normalized py xmax 1) as [b3|] eqn:E3; [|discriminate].
  intros [= <- _ _ _ _]. exists ymin, xmin, ymax, xmax, b0, b1, b2, b3.
  auto 12.
Qed.

Lemma Z2F_constants :
  Num.Z2F 0 = 0%float /\ Num.Z2F 1 = 1%float /\ Num.Z2F 500 = 500%float.
Proof. repeat split; vm_compute; reflexivity. Qed.

(** Clamped and divided, a raw coordinate that is a number lies in
    [0, 1]. *)
Lemma normalized_unit raw i :
  (i < 2)%nat -> PrimFloat.is_nan raw = false ->
  exists v, normalized py raw i = Ok v /\ Num.in_unit v = true.
Proof.
  intros Hi Hn. unfold normalized.
  assert (E : IMAGE_SHAPE_at i = 500) by (destruct i as [|[|i]]; [reflexivity..|lia]).
  rewrite E.
  destruct (clamp_cases raw i Hi) as [[_ ->]|[(_ & _ & ->)|(H500 & H0 & ->)]].
  - destruct py; eexists; split; reflexivity.
  - destruct py; eexists; split; reflexivity.
  - eexists. split; [reflexivity|].
    unfold Num.lt, Num.to_float in H500, H0. unfold Num.in_unit, Num.le, Num.to_float.
    destruct Z2F_constants as (-> & -> & ->).
    destruct (div_500_unit raw Hn H500 H0) as [-> ->]. reflexivity.
Qed.

Lemma normalized_nan raw i v :
  (i < 2)%nat -> PrimFloat.is_nan raw = true ->
  normalized py raw i = Ok v -> Num.is_nan v = true.
Proof.
  intros Hi Hn. unfold normalized.
  assert (E : IMAGE_SHAPE_at i = 500) by (destruct i as [|[|i]]; [reflexivity..|lia]).
  rewrite E.
  assert (Hc : clamp raw i = Float raw).
  { apply is_nan_spec in Hn.
    destruct (clamp_cases raw i Hi) as [[H _]|[(_ & H & _)|(_ & _ & ->)]];
      [exfalso..|reflexivity];
      unfold Num.lt, Num.to_float in H; rewrite FloatAxioms.ltb_spec in H;
      rewrite Hn in H; unfold SFltb, SFcompare in H;
      destruct (Prim2SF _); discriminate. }
  rewrite Hc. intros [= <-]. simpl. now apply is_nan_div.
Qed.

(** A coordinate the loader returns is in [0, 1] unless it is NaN. *)
Lemma normalized_unit_or_nan raw i v :
  (i < 2)%nat -> normalized py raw i = Ok v ->
  Num.is_nan v = false -> Num.in_unit v = true.
Proof.
  intros Hi Hv Hn.
  destruct (PrimFloat.is_nan raw) eqn:Er.
  - rewrite (normalized_nan raw i v Hi Er Hv) in Hn. discriminate.
  - destruct (normalized_unit raw i Hi Er) as (v' & Hv' & Hu). congruence.
Qed.

Lemma add_object_unit acc obj acc' :
  Forall (Forall unit_or_nan) (bboxes acc) ->
  add_object py BIB_LABELS acc obj = Ok acc' ->
  Forall (Forall unit_or_nan) (bboxes acc').
Proof.
  unfold add_object, rbind. intros Hacc.
  destruct (object_row py BIB_LABELS obj) as [[[[[box id] text] d] t]|] eqn:E; [|discriminate].
  intros [= <-]. simpl. apply Forall_app. split; [exact Hacc|].
  constructor; [|constructor].
  apply object_row_box in E
    as (ymin & xmin & ymax & xmax & b0 & b1 & b2 & b3 & _ & _ & _ & _ & E0 & E1 & E2 & E3 & ->).
  repeat constructor; red; eapply normalized_unit_or_nan; eauto.
Qed.

Lemma objects_unit objs a :
  rfor_each objs no_annotations (add_object py BIB_LABELS) = Ok a ->
  Forall (Forall unit_or_nan) (bboxes a).
Proof.
  intros H.
  apply (rfor_each_invariant (fun _ acc => Forall (Forall unit_or_nan) (bboxes acc))
           (add_object py BIB_LABELS) objs
           (fun n s x s' => add_object_unit s x s') 0%nat no_annotations a); [|exact H].
  constructor.
Qed.

End Objects.

(** ** The record of one identifier *)

Section Records.

Context (py : pyversion) (BIB_LABELS : gmap string Z).

Local Open Scope py_scope.

Lemma _add_to_tfrecord_spec ser frame dataset_dir dataset name writer w :
  _add_to_tfrecord py BIB_LABELS ser frame dataset_dir dataset name writer w
  = let w1 := fst (_process_image py BIB_LABELS dataset_dir name dataset w) in
    match encoded_example py BIB_LABELS dataset_dir dataset name w with
    | Ok example => writer_write frame writer (ser example) w1
    | Raise e => (w1, Raise e)
    end.
Proof.
  unfold _add_to_tfrecord, encoded_example, bind, rbind, lift.
  destruct (_process_image py BIB_LABELS dataset_dir name dataset w) as [w1 [[image a]|e]];
    simpl; [|reflexivity].
  now destruct (_convert_to_example _ _ _ _ _ _).
Qed.

(** A load that succeeds is encoded, and the record is the transposed
    box list next to the other four lists. *)
Lemma encoded_example_ok dataset_dir dataset name w image a :
  snd (_process_image py BIB_LABELS dataset_dir name dataset w) = Ok (image, a) ->
  aligned (length (bboxes a)) a
  /\ encoded_example py BIB_LABELS dataset_dir dataset name w
     = Ok {| image_height := 500; image_width := 500; image_channels := 3;
             image_shape := [500; 500; 3];
             bbox_xmin := float_feature (column 0 (bboxes a));
             bbox_xmax := float_feature (column 2 (bboxes a));
             bbox_ymin := float_feature (column 1 (bboxes a));
             bbox_ymax := float_feature (column 3 (bboxes a));
             bbox_label := labels a;
             bbox_label_text := labels_text a;
             bbox_difficult := difficult a;
             bbox_truncated := truncated a;
             image_format := "JPEG";
             image_encoded := image |}.
Proof.
  intros H. unfold encoded_example. rewrite H. simpl.
  destruct (_process_image py BIB_LABELS dataset_dir name dataset w) as [w' r] eqn:E.
  simpl in H. subst r.
  apply _process_image_ok in E as (xml & bytes & root & _ & _ & Hloop & _).
  pose proof (objects_aligned py BIB_LABELS _ _ Hloop) as Ha.
  assert (Hal : aligned (length (bboxes a)) a).
  { destruct Ha as (H1 & ?). now rewrite H1. }
  split; [exact Hal|].
  apply _convert_to_example_columns. apply Hal.
Qed.

Lemma loaded_object_count dataset_dir dataset name w image a bytes root :
  fs w !! annotation_filename dataset_dir name dataset = Some (File bytes (Some root)) ->
  snd (_process_image py BIB_LABELS dataset_dir name dataset w) = Ok (image, a) ->
  aligned (length (ET.findall "object" root)) a.
Proof.
  intros Hroot H.
  destruct (_process_image py BIB_LABELS dataset_dir name dataset w) as [w' r] eqn:E.
  simpl in H. subst r.
  apply _process_image_ok in E as (xml & bytes' & root' & _ & Hr & Hloop & _).
  rewrite Hroot in Hr. injection Hr as _ <-.
  now apply objects_aligned in Hloop.
Qed.

End Records.

(** ** File names and their identifiers *)

Section Identifiers.

Lemma contains_count c s : Str.contains c s = false <-> Str.count c s = 0%nat.
Proof.
  induction s as [|d s IH]; simpl; [tauto|].
  destruct (Ascii.eqb d c); simpl; [split; [discriminate|lia]|exact IH].
Qed.

(** What stands before the first dot is the name without its extension
    as long as there is one dot at most, and not in front. *)
Lemma before_dot_is_root fn :
  (Str.count "." fn <= 1)%nat -> Str.startswith "." fn = false ->
  Str.before "." fn = OsPath.splitext_root fn.
Proof.
  intros Hc Hs. unfold OsPath.splitext_root.
  assert (E : OsPath.lstrip_dots fn = (EmptyString, fn)).
  { destruct fn as [|c fn]; [reflexivity|]. simpl in Hs.
    apply Ascii.eqb_neq in Hs. simpl.
    destruct c as [[] [] [] [] [] [] [] []]; try reflexivity. now contradiction Hs. }
  rewrite E. simpl. clear E Hs.
  induction fn as [|c fn IH]; [reflexivity|]. simpl in *.
  destruct (Ascii.eqb c ".") eqn:Ec; simpl.
  - assert (H0 : Str.count "." fn = 0%nat) by lia.
    apply contains_count in H0. now rewrite H0.
  - now rewrite IH by lia.
Qed.

Lemma identifiers_before entries :
  identifiers entries = map (Str.before ".") entries.
Proof.
  unfold identifiers. apply map_ext. intros fn. apply split_first_piece.
Qed.

End Identifiers.

(** * The claims of the specification *)

(** C1 (as the code has it). On the specification's end-to-end example,
    two objects on the 500 x 500 geometry with the second box at
    xmin=10, ymin=10, xmax=600, ymax=450, the record is built, but the
    loader's boxes are (ymin, xmin, ymax, xmax) and the encoder files their
    columns under xmin, ymin, xmax, ymax: the second entry of the xmax
    sequence is the normalized ymax, 450/500, and the clamped and
    normalized x-max, 1.0, is the second entry of the ymax sequence. *)
Theorem example_xmax_lands_under_ymax (py : pyversion) :
  exists ex,
    encoded_example py example_labels "/data/bib" "validation" "0042-17" example_world = Ok ex
    /\ bbox_xmax ex !! 1%nat = Some (450 / 500)%float
    /\ bbox_ymax ex !! 1%nat = Some 1%float
    /\ PrimFloat.eqb (450 / 500) 1 = false.
Proof. destruct py; eexists; repeat split; vm_compute; reflexivity. Qed.

(** C2 (as the code has it). On the same example, whose first object
    carries [<difficult>1</difficult>] and whose second has neither flag,
    the record's difficult sequence is [0, 0], not [1, 0]: the flag element
    has no child elements, so its truth value is false and its text is
    never read. The truncated sequence is [0, 0]. *)
Theorem example_difficult_flag_dropped (py : pyversion) :
  exists ex,
    encoded_example py example_labels "/data/bib" "validation" "0042-17" example_world = Ok ex
    /\ bbox_difficult ex = [0; 0]
    /\ bbox_truncated ex = [0; 0]
    /\ flag py "difficult" (Elem "object" None [leaf "difficult" "1"]) = Ok 0
    /\ Num.int_of py (Some "1") = Ok 1.
Proof. destruct py; eexists; repeat split; vm_compute; reflexivity. Qed.

(** C3 (as the code has it). The second box of the example has a raw xmax
    of 600, above the width of 500; the loader returns its annotations and
    writes nothing to the console. The comparison that guards the warning
    is made after the clamping, on a value that is at most 500. *)
Theorem example_no_warning_printed (py : pyversion) :
  let obj := Elem "object" None [leaf "name" "bib"; bndbox "10" "10" "600" "450"] in
  let r := _process_image py example_labels "/data/bib" "0042-17" "validation" example_world in
  coordinate py "xmax" (ET.find "bndbox" obj) = Ok 600%float
  /\ Num.gt (Float 600) (Int 500) = true
  /\ Num.gt (clamp 600 1) (Int 500) = false
  /\ is_ok (snd r) = true
  /\ stdout (fst r) = [].
Proof. destruct py; repeat split; vm_compute; reflexivity. Qed.

(** C4. For an identifier whose annotation has N [object] elements, the
    record encoded from what the loader returns has four coordinate
    sequences and label, label-text, difficult and truncated sequences of
    length N each. *)
Theorem record_sequences_have_object_count
        (py : pyversion) (BIB_LABELS : gmap string Z)
        (dataset_dir dataset name : string) (w : World)
        (bytes : string) (root : Element) :
  fs w !! annotation_filename dataset_dir name dataset = Some (File bytes (Some root)) ->
  is_ok (snd (_process_image py BIB_LABELS dataset_dir name dataset w)) = true ->
  let N := length (ET.findall "object" root) in
  exists ex,
    encoded_example py BIB_LABELS dataset_dir dataset name w = Ok ex
    /\ length (bbox_xmin ex) = N /\ length (bbox_ymin ex) = N
    /\ length (bbox_xmax ex) = N /\ length (bbox_ymax ex) = N
    /\ length (bbox_label ex) = N /\ length (bbox_label_text ex) = N
    /\ length (bbox_difficult ex) = N /\ length (bbox_truncated ex) = N.
Proof.
  intros Hroot Hok N.
  destruct (snd (_process_image py BIB_LABELS dataset_dir name dataset w))
    as [[image a]|e] eqn:E; [|discriminate].
  destruct (encoded_example_ok py BIB_LABELS _ _ _ _ _ _ E) as [_ Hex].
  destruct (loaded_object_count py BIB_LABELS _ _ _ _ _ _ _ _ Hroot E)
    as (H1 & H2 & H3 & H4 & H5 & _).
  eexists. split; [exact Hex|]. simpl.
  rewrite !column_length. fold N in H1, H2, H3, H4, H5. auto 10.
Qed.

(** On the small dataset: two objects, eight sequences of length 2. *)
Lemma record_sequences_have_object_count_witness :
  fs example_world !! annotation_filename "/data/bib" "0042-17" "validation"
  = Some (File "<annotation>" (Some example_annotation))
  /\ is_ok (snd (_process_image Py3 example_labels "/data/bib" "0042-17" "validation"
                                example_world)) = true
  /\ exists ex,
      encoded_example Py3 example_labels "/data/bib" "validation" "0042-17" example_world = Ok ex
      /\ length (bbox_xmin ex) = 2%nat /\ length (bbox_ymin ex) = 2%nat
      /\ length (bbox_xmax ex) = 2%nat /\ length (bbox_ymax ex) = 2%nat
      /\ length (bbox_label ex) = 2%nat /\ length (bbox_label_text ex) = 2%nat
      /\ length (bbox_difficult ex) = 2%nat /\ length (bbox_truncated ex) = 2%nat.
Proof.
  split; [vm_compute; reflexivity|]. split; [vm_compute; reflexivity|].
  apply (record_sequences_have_object_count
           Py3 example_labels "/data/bib" "validation" "0042-17" example_world
           "<annotation>" example_annotation);
    vm_compute; reflexivity.
Defined.

(** C5 (as stated, refuted). The claim covers every raw floating-point
    value; the text [nan] is one [float()] accepts, both comparisons of
    the clamp are false on it, and what the loader returns for it is NaN,
    neither at least 0 nor at most 1. *)
Lemma nan_coordinate_outside_unit_interval :
  Num.float_of_text Py3 "nan" = Ok PrimFloat.nan
  /\ normalized Py3 PrimFloat.nan 0 = Ok (Float PrimFloat.nan)
  /\ Num.le (Int 0) (Float PrimFloat.nan) = false
  /\ Num.le (Float PrimFloat.nan) (Int 1) = false
  /\ snd (_process_image Py3 example_labels "/data/bib" "0042-17" "validation" nan_world)
     = Ok ("JFIF",
           {| bboxes := [[Float (10 / 500); Float (10 / 500);
                          Float PrimFloat.nan; Float (20 / 500)]];
              labels := [1]; labels_text := ["bib"];
              difficult := [0]; truncated := [0] |})
  /\ ~ (forall py raw i, (i < 2)%nat ->
          exists v, normalized py raw i = Ok v /\ Num.in_unit v = true).
Proof.
  do 5 (split; [vm_compute; reflexivity|]).
  intros H. destruct (H Py3 PrimFloat.nan 0%nat ltac:(lia)) as (v & Hv & Hu).
  vm_compute in Hv. injection Hv as <-. vm_compute in Hu. discriminate.
Qed.

(** C5 (amended). For every raw floating-point coordinate value that is
    not NaN, however far out of range, the loader's output after clamping
    to [0, fixed_dimension] and dividing by the fixed dimension lies in
    [0, 1]; so every coordinate the loader returns is in [0, 1] or is NaN;
    and a raw ymax of 600 on the height of 500 clamps to 500 and
    normalizes to 1.0. *)
Theorem numeric_coordinates_in_unit_interval :
  (forall py raw i,
      (i < 2)%nat -> PrimFloat.is_nan raw = false ->
      exists v, normalized py raw i = Ok v /\ Num.in_unit v = true)
  /\ (forall py BIB_LABELS directory name dataset w image a,
         snd (_process_image py BIB_LABELS directory name dataset w) = Ok (image, a) ->
         Forall (Forall unit_or_nan) (bboxes a))
  /\ (forall py,
         exists v, clamp 600 0 = Int 500
                   /\ normalized py 600 0 = Ok v /\ Num.eq v (Float 1) = true).
Proof.
  split; [|split].
  - intros py raw i. apply normalized_unit.
  - intros py BIB_LABELS directory name dataset w image a H.
    destruct (_process_image py BIB_LABELS directory name dataset w) as [w' r] eqn:E.
    simpl in H. subst r.
    apply _process_image_ok in E as (xml & bytes & root & _ & _ & Hloop & _).
    now apply objects_unit in Hloop.
  - intros py. destruct py; eexists; repeat split; vm_compute; reflexivity.
Qed.

(** A raw coordinate of -35, and the boxes the loader returns on the small
    dataset under Python 2. *)
Lemma numeric_coordinates_in_unit_interval_witness :
  (1 < 2)%nat
  /\ PrimFloat.is_nan (-35)%float = false
  /\ (exists v, normalized Py2 (-35)%float 1 = Ok v /\ Num.in_unit v = true)
  /\ Forall (Forall unit_or_nan)
            [[Float (120 / 500); Float (100 / 500); Float (360 / 500); Float (300 / 500)];
             [Float (10 / 500); Float (10 / 500); Float (450 / 500); Int 1]].
Proof.
  split; [lia|]. split; [vm_compute; reflexivity|]. split.
  - apply (proj1 numeric_coordinates_in_unit_interval Py2 (-35)%float 1%nat);
      [lia|vm_compute; reflexivity].
  - apply (proj1 (proj2 numeric_coordinates_in_unit_interval)
                 Py2 example_labels "/data/bib" "0042-17" "validation" example_world
                 "JFIF"
                 {| bboxes := [[Float (120 / 500); Float (100 / 500);
                                Float (360 / 500); Float (300 / 500)];
                               [Float (10 / 500); Float (10 / 500);
                                Float (450 / 500); Int 1]];
                    labels := [1; 1]; labels_text := ["bib"; "bib"];
                    difficult := [0; 0]; truncated := [0; 0] |}).
    vm_compute. reflexivity.
Defined.

(** C6. When the output file for (output_dir, dataset, name) exists, the
    run returns without error after writing the one informational line; it
    makes no call but the two existence checks (and the creation of the
    output directory, should that be missing), so it lists and reads
    nothing; every path that existed, the output file among them, holds
    what it held. And a run that follows a completed run finds the output
    file, returns the same way and leaves the files as they are. *)
Theorem run_on_existing_output_is_noop
        (py : pyversion) (BIB_LABELS : gmap string Z)
        (SerializeToString : Example -> string) (frame : string -> string)
        (dataset_dir output_dir name dataset : string) (w : World) :
  let target := _get_output_filename output_dir dataset name in
  let go := run py BIB_LABELS SerializeToString frame dataset_dir output_dir name dataset in
  (is_Some (fs w !! target) ->
   exists w',
     go w = (w', Ok tt)
     /\ stdout w' = stdout w ++ [skip_message]
     /\ (forall p, is_Some (fs w !! p) -> fs w' !! p = fs w !! p)
     /\ exists new,
         calls w' = calls w ++ new
         /\ Forall (fun c => c = CExists output_dir \/ c = CMakeDirs output_dir
                             \/ c = CExists target) new)
  /\ (forall w1,
         go w = (w1, Ok tt) ->
         exists w2, go w1 = (w2, Ok tt) /\ fs w2 = fs w1
                    /\ stdout w2 = stdout w1 ++ [skip_message]).
Proof.
  intros target go. split.
  - intros Ht. unfold go. rewrite run_skip by exact Ht.
    eexists. split; [reflexivity|]. simpl. split; [reflexivity|]. split.
    + intros p [c Hp]. destruct (fs w !! output_dir) eqn:Ed; [reflexivity|].
      rewrite lookup_insert_ne; [reflexivity|]. intros <-. congruence.
    + eexists. split; [reflexivity|].
      destruct (fs w !! output_dir); simpl;
        repeat (constructor; [solve [auto]|]); constructor.
  - intros w1 H1.
    destruct (run_leaves_output py BIB_LABELS SerializeToString frame _ _ _ _ _ _ H1)
      as [Ht [c Hd]].
    unfold go. rewrite run_skip by exact Ht. rewrite Hd.
    eexists. split; [reflexivity|]. simpl. split; reflexivity.
Qed.

(** The small dataset has its output file: the run skips. *)
Lemma run_on_existing_output_is_noop_witness :
  is_Some (fs example_world !! _get_output_filename "/out" "validation" "bib")
  /\ exists w',
      run Py3 example_labels (fun _ => "record") (fun r => r)
          "/data/bib" "/out" "bib" "validation" example_world = (w', Ok tt)
      /\ stdout w' = stdout example_world ++ [skip_message]
      /\ (forall p, is_Some (fs example_world !! p) -> fs w' !! p = fs example_world !! p)
      /\ exists new,
          calls w' = calls example_world ++ new
          /\ Forall (fun c => c = CExists "/out" \/ c = CMakeDirs "/out"
                              \/ c = CExists (_get_output_filename "/out" "validation" "bib"))
                    new.
Proof.
  assert (H : is_Some (fs example_world !! _get_output_filename "/out" "validation" "bib"))
    by (vm_compute; eauto).
  split; [exact H|].
  exact (proj1 (run_on_existing_output_is_noop
                  Py3 example_labels (fun _ => "record") (fun r => r)
                  "/data/bib" "/out" "bib" "validation" example_world) H).
Defined.

(** C7 (as stated, refuted). The directory of [dotted_world] lists the one
    file name [a.b.xml]; without its extension that is [a.b], and the
    enumeration gives [a]. *)
Lemma dotted_name_loses_more_than_extension :
  snd (enumerate_identifiers "/data/bib" "validation" dotted_world) = Ok ["a"]
  /\ spec_identifiers ["a.b.xml"] = ["a.b"]
  /\ snd (enumerate_identifiers "/data/bib" "validation" dotted_world)
     <> Ok (spec_identifiers ["a.b.xml"]).
Proof. repeat split; try discriminate; vm_compute; reflexivity. Qed.

(** C7 (amended). For a root directory and a split, the enumeration lists
    the split's annotation directory, [join(root, 'Annotations/', split)],
    once, and returns for every listed file name, in listing order, what
    stands before the name's first dot; for a file name with at most one
    dot, and none in front, that is the file name minus its extension. *)
Theorem identifiers_cut_at_first_dot
        (dataset_dir dataset : string) (w : World) (entries : list string) :
  fs w !! OsPath.join dataset_dir [DIRECTORY_ANNOTATIONS; dataset] = Some (Dir entries) ->
  let r := enumerate_identifiers dataset_dir dataset w in
  snd r = Ok (map (Str.before ".") entries)
  /\ calls (fst r)
     = calls w ++ [CListdir (OsPath.join dataset_dir [DIRECTORY_ANNOTATIONS; dataset])]
  /\ Forall (fun fn => (Str.count "." fn <= 1)%nat -> Str.startswith "." fn = false ->
                       Str.before "." fn = OsPath.splitext_root fn) entries.
Proof.
  intros H r. unfold r. rewrite enumerate_identifiers_spec, H. simpl.
  rewrite identifiers_before. repeat split.
  apply Forall_forall. intros fn _. apply before_dot_is_root.
Qed.

(** The annotation directory of the small dataset. *)
Lemma identifiers_cut_at_first_dot_witness :
  fs example_world !! OsPath.join "/data/bib" [DIRECTORY_ANNOTATIONS; "validation"]
  = Some (Dir ["0042-17.xml"])
  /\ snd (enumerate_identifiers "/data/bib" "validation" example_world) = Ok ["0042-17"]
  /\ OsPath.splitext_root "0042-17.xml" = "0042-17".
Proof.
  assert (H : fs example_world !! OsPath.join "/data/bib" [DIRECTORY_ANNOTATIONS; "validation"]
              = Some (Dir ["0042-17.xml"])) by (vm_compute; reflexivity).
  split; [exact H|]. split; [|reflexivity].
  exact (proj1 (identifiers_cut_at_first_dot "/data/bib" "validation" example_world
                                             ["0042-17.xml"] H)).
Defined.

(** C8 (as stated, refuted). The claim speaks of every identifier, and
    gives the paths below the root. [os.path.join] starts the path again at
    a component that begins with a separator, and writes no separator after
    an empty root: for the identifier [/tmp/x-1] the loader reads
    [/tmp/x-1.jpg] and would parse [/tmp/x-1.xml]; for the split [/mnt/val]
    it reads below [/mnt/val]; for the empty root it reads the relative
    path [JPEGImages/...]. None of these is the path of the claim. *)
Lemma absolute_component_leaves_root :
  calls (fst (_process_image Py2 example_labels "/data/bib" "/tmp/x-1" "validation"
                             example_world))
  = [CRead "/tmp/x-1.jpg"]
  /\ ~ OsPath.same_path "/tmp/x-1.jpg" (spec_image_path "/data/bib" "/tmp/x-1" "validation")
  /\ annotation_filename "/data/bib" "/tmp/x-1" "validation" = "/tmp/x-1.xml"
  /\ ~ OsPath.same_path "/tmp/x-1.xml"
                        (spec_annotation_path "/data/bib" "/tmp/x-1" "validation")
  /\ image_filename "/data/bib" "0042-17" "/mnt/val" = "/mnt/val/0042-17.jpg"
  /\ ~ OsPath.same_path "/mnt/val/0042-17.jpg"
                        (spec_image_path "/data/bib" "0042-17" "/mnt/val")
  /\ image_filename "" "0042-17" "validation" = "JPEGImages/validation/0042-17.jpg"
  /\ ~ OsPath.same_path "JPEGImages/validation/0042-17.jpg"
                        (spec_image_path "" "0042-17" "validation")
  /\ ~ (forall root name dataset,
          OsPath.same_path (image_filename root name dataset)
                           (spec_image_path root name dataset)
          /\ OsPath.same_path (annotation_filename root name dataset)
                              (spec_annotation_path root name dataset)).
Proof.
  split; [vm_compute; reflexivity|].
  split; [intros H; vm_compute in H; discriminate|].
  split; [vm_compute; reflexivity|].
  split; [intros H; vm_compute in H; discriminate|].
  split; [vm_compute; reflexivity|].
  split; [intros H; vm_compute in H; discriminate|].
  split; [vm_compute; reflexivity|].
  split; [intros H; vm_compute in H; discriminate|].
  intros H. destruct (H "/data/bib" "/tmp/x-1" "validation") as [Hi _].
  vm_compute in Hi. discriminate.
Qed.

(** C8 (amended). For a root directory that is not the empty string and
    a split and an identifier that do not start with a separator, the
    loader opens the image at
    root/JPEGImages/training/<prefix>/<identifier>.jpg when the split is
    "training", <prefix> being what stands before the identifier's first
    dash, and at root/JPEGImages/<split>/<identifier>.jpg for any other
    split, and it parses the annotation at
    root/Annotations/<split>/<identifier>.xml in both cases: its first
    call is the read of the image path and nothing but the parse of the
    annotation path follows; with a file at the image path that the
    interpreter reads, the parse does follow; and what the loader returns
    is the content of the file at the image path and the objects of the
    document at the annotation path. The paths are those of the claim up
    to repeated separators, and character for character when root has no
    trailing separator, split and identifier are plain names and, for
    "training", the prefix is not empty. *)
Theorem loader_resolves_paths
        (py : pyversion) (BIB_LABELS : gmap string Z)
        (root name dataset : string) (w : World) :
  Str.is_empty root = false ->
  Str.startswith "/" dataset = false ->
  Str.startswith "/" name = false ->
  let image := image_filename root name dataset in
  let annotation := annotation_filename root name dataset in
  let r := _process_image py BIB_LABELS root name dataset w in
  (exists rest, calls (fst r) = calls w ++ CRead image :: rest
                /\ (rest = [] \/ rest = [CParse annotation]))
  /\ (forall bytes xml,
         fs w !! image = Some (File bytes xml) -> decodes py bytes = true ->
         calls (fst r) = calls w ++ [CRead image; CParse annotation])
  /\ (forall data a,
         snd r = Ok (data, a) ->
         exists xml bytes doc,
           fs w !! image = Some (File data xml)
           /\ fs w !! annotation = Some (File bytes (Some doc))
           /\ rfor_each (ET.findall "object" doc) no_annotations
                        (add_object py BIB_LABELS) = Ok a)
  /\ OsPath.same_path image (spec_image_path root name dataset)
  /\ OsPath.same_path annotation (spec_annotation_path root name dataset)
  /\ (plain_dir root = true -> plain_name dataset = true -> plain_name name = true ->
      annotation = spec_annotation_path root name dataset
      /\ (String.eqb dataset "training" = false \/ Str.startswith "-" name = false ->
          image = spec_image_path root name dataset)).
Proof.
  intros Hr Hd Hn image annotation r.
  pose proof (_process_image_calls py BIB_LABELS root name dataset w) as Hc.
  cbv zeta in Hc. fold image annotation r in Hc.
  split; [|split; [|split; [|split; [|split]]]].
  - eexists. split; [exact Hc|].
    destruct (fs w !! image) as [[?|bytes ?]|]; auto.
    destruct (decodes py bytes); auto.
  - intros bytes xml Hf Hb. now rewrite Hc, Hf, Hb.
  - intros data a Ha. unfold r in Ha.
    destruct (_process_image py BIB_LABELS root name dataset w) as [w' res] eqn:E.
    cbn [snd] in Ha. subst res.
    apply _process_image_ok in E as (xml & bytes & doc & H1 & H2 & H3 & _).
    exists xml, bytes, doc. auto.
  - now apply image_filename_same.
  - now apply annotation_filename_same.
  - intros Pr Pd Pn. split.
    + now apply annotation_filename_exact.
    + intros Hx. now apply image_filename_exact.
Qed.

(** The paths of identifier 0042-17 in the validation split of the small
    dataset, and the two calls of the loader on them. *)
Lemma loader_resolves_paths_witness :
  Str.is_empty "/data/bib" = false
  /\ Str.startswith "/" "validation" = false
  /\ Str.startswith "/" "0042-17" = false
  /\ calls (fst (_process_image Py3 example_labels "/data/bib" "0042-17" "validation"
                                example_world))
     = [CRead "/data/bib/JPEGImages/validation/0042-17.jpg";
        CParse "/data/bib/Annotations/validation/0042-17.xml"]
  /\ annotation_filename "/data/bib" "0042-17" "validation"
     = "/data/bib/Annotations/validation/0042-17.xml"
  /\ image_filename "/data/bib" "0042-17" "validation"
     = "/data/bib/JPEGImages/validation/0042-17.jpg".
Proof.
  do 3 (split; [reflexivity|]).
  destruct (loader_resolves_paths Py3 example_labels "/data/bib" "0042-17" "validation"
                                  example_world eq_refl eq_refl eq_refl)
    as (_ & Hc & _ & _ & _ & H).
  destruct (H eq_refl eq_refl eq_refl) as [Ea Ei].
  split; [|split; [exact Ea|exact (Ei (or_introl eq_refl))]].
  exact (Hc "JFIF" None eq_refl eq_refl).
Defined.

(** C9. The encoder asserts that every box has four coordinates: on a box
    list with any other box it raises the assertion error. Every box the
    loader returns has four coordinates, so on the loader's output the
    encoder does not raise that error; it returns the record. *)
Theorem encoder_assertion_holds_on_loader_output
        (py : pyversion) (BIB_LABELS : gmap string Z)
        (dataset_dir dataset name : string) (w : World) :
  (forall image labels labels_text boxes difficult truncated,
      Exists (fun b => length b <> 4%nat) boxes ->
      _convert_to_example image labels labels_text boxes difficult truncated
      = Raise AssertionError)
  /\ (forall image a,
         snd (_process_image py BIB_LABELS dataset_dir name dataset w) = Ok (image, a) ->
         Forall (fun b => length b = 4%nat) (bboxes a)
         /\ _convert_to_example image (labels a) (labels_text a) (bboxes a)
                                (difficult a) (truncated a) <> Raise AssertionError
         /\ is_ok (_convert_to_example image (labels a) (labels_text a) (bboxes a)
                                       (difficult a) (truncated a)) = true).
Proof.
  split.
  - intros. now apply _convert_to_example_asserts.
  - intros image a H.
    destruct (encoded_example_ok py BIB_LABELS _ _ _ _ _ _ H) as [Hal _].
    assert (Hb : Forall (fun b => length b = 4%nat) (bboxes a)) by apply Hal.
    split; [exact Hb|].
    rewrite (_convert_to_example_columns _ _ _ _ _ _ Hb). split; [discriminate|reflexivity].
Qed.

(** A box of three coordinates is refused; the boxes of the small dataset
    are encoded. *)
Lemma encoder_assertion_holds_on_loader_output_witness :
  _convert_to_example "JFIF" [1] ["bib"] [[Float 0; Float 0; Float 1]] [0] [0]
  = Raise AssertionError
  /\ is_ok (encoded_example Py2 example_labels "/data/bib" "validation" "0042-17"
                            example_world) = true.
Proof.
  destruct (encoder_assertion_holds_on_loader_output
              Py2 example_labels "/data/bib" "validation" "0042-17" example_world)
    as [Hreject Haccept].
  split.
  - apply Hreject. constructor. simpl. lia.
  - destruct (snd (_process_image Py2 example_labels "/data/bib" "0042-17" "validation"
                                  example_world)) as [[image a]|e] eqn:E.
    + destruct (Haccept image a eq_refl) as (_ & _ & Hok).
      unfold encoded_example. rewrite E. exact Hok.
    + vm_compute in E. discriminate.
Defined.



(** * Further properties of the script *)

(** ** File names *)


(** X1. For one output directory the output file name tells the names of
    a split apart, and the splits of a name apart; it is never the output
    directory itself. *)
Theorem output_filename_injective (output_dir dataset name : string) :
  (forall name',
      _get_output_filename output_dir dataset name
      = _get_output_filename output_dir dataset name' -> name = name')
  /\ (forall dataset',
         _get_output_filename output_dir dataset name
         = _get_output_filename output_dir dataset' name -> dataset = dataset')
  /\ _get_output_filename output_dir dataset name <> output_dir.
Proof.
  unfold _get_output_filename. split; [|split].
  - intros name' H. apply append_cancel_l in H. simpl in H. injection H as H.
    now apply append_cancel_r in H.
  - intros dataset' H. do 4 apply append_cancel_l in H.
    now apply append_cancel_r in H.
  - now apply append_not_self.
Qed.

Lemma before_append_sep sep stem rest :
  Str.contains sep stem = false ->
  Str.before sep (stem +:+ String sep rest) = stem.
Proof.
  induction stem as [|c stem IH]; simpl.
  - intros _. now rewrite Ascii.eqb_refl.
  - intros H. apply orb_false_iff in H as [-> H]. now rewrite IH.
Qed.

Lemma join_last a l b : OsPath.join a (l ++ [b]) = OsPath.join2 (OsPath.join a l) b.
Proof. unfold OsPath.join. now rewrite fold_left_app. Qed.

(** X2. A listed annotation file [stem.xml] whose stem has no dot gives the
    identifier [stem], and the annotation path the loader builds from that
    identifier is the listed entry joined to the listed directory: the
    loader opens the file the listing named. *)
Theorem listed_annotation_is_opened (root dataset stem : string) :
  Str.contains "." stem = false ->
  let fn := stem +:+ ".xml" in
  identifiers [fn] = [stem]
  /\ annotation_filename root stem dataset
     = OsPath.join (OsPath.join root [DIRECTORY_ANNOTATIONS; dataset]) [fn].
Proof.
  intros H fn. split.
  - unfold identifiers. simpl. rewrite split_first_piece.
    unfold fn. now rewrite (before_append_sep "." stem "xml" H).
  - reflexivity.
Qed.

(** The entry and the identifier of the small dataset. *)
Lemma listed_annotation_is_opened_witness :
  Str.contains "." "0042-17" = false
  /\ identifiers ["0042-17.xml"] = ["0042-17"]
  /\ annotation_filename "/data/bib" "0042-17" "validation"
     = OsPath.join (OsPath.join "/data/bib" [DIRECTORY_ANNOTATIONS; "validation"])
                   ["0042-17.xml"].
Proof.
  split; [reflexivity|].
  exact (listed_annotation_is_opened "/data/bib" "validation" "0042-17" eq_refl).
Defined.

Lemma join2_absolute path b : Str.startswith "/" b = true -> OsPath.join2 path b = b.
Proof. intros H. unfold OsPath.join2. now rewrite H. Qed.

(** X3. An identifier that starts with a separator is taken as an absolute
    path: the image and the annotation are looked for at identifier.jpg
    and identifier.xml, whatever the root and the split. *)
Theorem absolute_identifier_ignores_root (root name dataset : string) :
  Str.startswith "/" name = true ->
  image_filename root name dataset = name +:+ ".jpg"
  /\ annotation_filename root name dataset = name +:+ ".xml".
Proof.
  intros H.
  assert (Hx : forall ext, Str.startswith "/" (name +:+ ext) = true).
  { intros ext. destruct name; [discriminate|exact H]. }
  split.
  - unfold image_filename. destruct (String.eqb dataset "training").
    + exact (eq_trans (join_last root [DIRECTORY_IMAGES; dataset; _] _)
                      (join2_absolute _ _ (Hx ".jpg"))).
    + exact (eq_trans (join_last root [DIRECTORY_IMAGES; dataset] _)
                      (join2_absolute _ _ (Hx ".jpg"))).
  - exact (eq_trans (join_last root [DIRECTORY_ANNOTATIONS; dataset] _)
                    (join2_absolute _ _ (Hx ".xml"))).
Qed.

(** An identifier that is an absolute path, in the training split. *)
Lemma absolute_identifier_ignores_root_witness :
  Str.startswith "/" "/tmp/x-1" = true
  /\ image_filename "/data/bib" "/tmp/x-1" "training" = "/tmp/x-1.jpg"
  /\ annotation_filename "/data/bib" "/tmp/x-1" "training" = "/tmp/x-1.xml".
Proof.
  split; [reflexivity|].
  exact (absolute_identifier_ignores_root "/data/bib" "/tmp/x-1" "training" eq_refl).
Defined.

(** ** The loader, object by object *)

Section Rows.

Context (py : pyversion) (BIB_LABELS : gmap string Z).

Local Open Scope py_scope.

Lemma push_rows rows : forall acc,
  bboxes (fold_left push rows acc) = bboxes acc ++ map row_box rows
  /\ labels (fold_left push rows acc) = labels acc ++ map row_label rows
  /\ labels_text (fold_left push rows acc) = labels_text acc ++ map row_text rows
  /\ difficult (fold_left push rows acc) = difficult acc ++ map row_difficult rows
  /\ truncated (fold_left push rows acc) = truncated acc ++ map row_truncated rows.
Proof.
  induction rows as [|[[[[box id] text] d] t] rows IH]; intros acc; cbn [fold_left map].
  - now rewrite !app_nil_r.
  - destruct (IH (push acc (box, id, text, d, t))) as (-> & -> & -> & -> & ->).
    cbn. now rewrite <- !app_assoc.
Qed.

(** The loop over the objects returns when every object has a row, and
    then it has pushed the rows in the order of the objects. *)
Lemma objects_rows objs : forall acc a,
  rfor_each objs acc (add_object py BIB_LABELS) = Ok a
  <-> exists rows,
      Forall2 (fun obj row => object_row py BIB_LABELS obj = Ok row) objs rows
      /\ a = fold_left push rows acc.
Proof.
  induction objs as [|obj objs IH]; intros acc a; cbn [rfor_each].
  - split.
    + intros [= <-]. exists []. split; [constructor|reflexivity].
    + intros (rows & H & ->). inversion H. reflexivity.
  - unfold rbind, add_object at 1. unfold rbind.
    destruct (object_row py BIB_LABELS obj) as [row|e] eqn:E.
    + rewrite IH. split.
      * intros (rows & H & ->). exists (row :: rows). split; [now constructor|reflexivity].
      * intros (rows & H & ->). inversion H as [|? r ? rows' Hr Hrs]; subst.
        rewrite E in Hr. injection Hr as <-. exists rows'. now split.
    + split; [discriminate|].
      intros (rows & H & _). inversion H; subst. congruence.
Qed.

(** The error of the loop is the error of the first object without a
    row. *)
Lemma objects_first_error pre obj post e : forall acc,
  Forall (fun o => is_ok (object_row py BIB_LABELS o) = true) pre ->
  object_row py BIB_LABELS obj = Raise e ->
  rfor_each (pre ++ obj :: post) acc (add_object py BIB_LABELS) = Raise e.
Proof.
  induction pre as [|o pre IH]; intros acc Hpre Hobj; cbn [app rfor_each].
  - unfold rbind, add_object at 1. unfold rbind. now rewrite Hobj.
  - inversion Hpre as [|? ? Ho Hpre']; subst.
    unfold rbind, add_object at 1. unfold rbind.
    destruct (object_row py BIB_LABELS o); [|discriminate]. now apply IH.
Qed.

Lemma objects_ok objs : forall acc,
  is_ok (rfor_each objs acc (add_object py BIB_LABELS))
  = forallb (fun o => is_ok (object_row py BIB_LABELS o)) objs.
Proof.
  induction objs as [|obj objs IH]; intros acc; cbn [rfor_each forallb]; [reflexivity|].
  unfold rbind, add_object at 1. unfold rbind.
  destruct (object_row py BIB_LABELS obj); cbn [is_ok andb]; [apply IH|reflexivity].
Qed.

(** What the loader returns, read off the two files. *)
Lemma load_by_files directory name dataset w :
  snd (_process_image py BIB_LABELS directory name dataset w)
  = match file_at (fs w) (image_filename directory name dataset) with
    | Some (image, _) =>
        if decodes py image then
          match file_at (fs w) (annotation_filename directory name dataset) with
          | Some (_, Some root) =>
              let? a := rfor_each (ET.findall "object" root) no_annotations
                                  (add_object py BIB_LABELS) in
              Ok (image, a)
          | Some (_, None) => Raise ParseError
          | None => Raise IOError
          end
        else Raise UnicodeError
    | None => Raise IOError
    end.
Proof.
  rewrite _process_image_spec. unfold file_at.
  destruct (fs w !! image_filename directory name dataset) as [[?|img xml]|];
    try reflexivity.
  destruct (decodes py img); [|reflexivity].
  now destruct (fs w !! annotation_filename directory name dataset) as [[?|bytes [root|]]|].
Qed.

Lemma object_row_label obj box id text d t :
  object_row py BIB_LABELS obj = Ok (box, id, text, d, t) ->
  exists e, ET.find "name" obj = Some e /\ ET.text e = Some text
            /\ BIB_LABELS !! text = Some id /\ is_ascii text = true.
Proof.
  unfold object_row, rbind.
  destruct (ET.find "name" obj) as [e|] eqn:Ee; [|discriminate]. cbn [ET.text_of].
  destruct (ET.text e) as [l|] eqn:El; [|discriminate]. cbn [label_id encode_ascii].
  destruct (BIB_LABELS !! l) as [i|] eqn:Ei; [|discriminate].
  destruct (is_ascii l) eqn:Ea; [|discriminate].
  repeat (match goal with
          | |- context [match ?r with Ok _ => _ | Raise _ => _ end] =>
              destruct r; [|discriminate]
          end).
  intros [= _ <- <- _ _]. exists e. auto.
Qed.

Lemma object_row_flags obj box id text d t :
  (forall f e, In f ["difficult"; "truncated"] ->
               ET.find f obj = Some e -> ET.children e = []) ->
  object_row py BIB_LABELS obj = Ok (box, id, text, d, t) -> d = 0 /\ t = 0.
Proof.
  intros Hleaf. unfold object_row, rbind.
  assert (Hf : forall f, In f ["difficult"; "truncated"] -> flag py f obj = Ok 0).
  { intros f Hin. unfold flag, ET.find_truth, ET.truth.
    destruct (ET.find f obj) as [e|] eqn:E; [|reflexivity].
    now rewrite (Hleaf f e Hin E). }
  rewrite (Hf "difficult") by (cbn; auto). rewrite (Hf "truncated") by (cbn; auto).
  repeat (match goal with
          | |- context [match ?r with Ok _ => _ | Raise _ => _ end] =>
              destruct r; [|discriminate]
          end).
  now intros [= _ _ _ <- <-].
Qed.

Lemma object_row_needs_box obj :
  ET.find "bndbox" obj = None -> is_ok (object_row py BIB_LABELS obj) = false.
Proof.
  intros H. unfold object_row, rbind. rewrite H. cbn [coordinate ET.find_in rbind].
  repeat (match goal with
          | |- context [match ?r with Ok _ => _ | Raise _ => _ end] =>
              destruct r; [|reflexivity]
          end).
  reflexivity.
Qed.

End Rows.

(** X4. The loader fails at the first file that is not as it needs it,
    before it looks further: with no image file at the image path it
    raises the I/O error after the one read attempt; under Python 3, with
    an image whose bytes are no UTF-8, it raises the Unicode error at that
    read; in both cases the annotation is not touched. With an image that
    is read and no annotation file it raises the I/O error at the parse,
    and with an annotation file that is not well-formed XML the parse
    error. *)
Theorem loader_file_errors
        (py : pyversion) (BIB_LABELS : gmap string Z)
        (directory name dataset : string) (w : World) :
  let image := image_filename directory name dataset in
  let annotation := annotation_filename directory name dataset in
  let r := _process_image py BIB_LABELS directory name dataset w in
  (file_at (fs w) image = None ->
   r = (logged w (CRead image), Raise IOError))
  /\ (forall bytes xml,
         file_at (fs w) image = Some (bytes, xml) -> decodes py bytes = false ->
         py = Py3 /\ r = (logged w (CRead image), Raise UnicodeError))
  /\ (forall bytes xml,
         file_at (fs w) image = Some (bytes, xml) -> decodes py bytes = true ->
         calls (fst r) = calls w ++ [CRead image; CParse annotation]
         /\ (file_at (fs w) annotation = None -> snd r = Raise IOError)
         /\ ((exists text, file_at (fs w) annotation = Some (text, None)) ->
             snd r = Raise ParseError)).
Proof.
  intros image annotation r. unfold r. rewrite _process_image_spec.
  fold image annotation. unfold file_at.
  destruct (fs w !! image) as [[?|img xml]|].
  - split; [reflexivity|]. split; intros ? ? [=].
  - split; [discriminate|]. split.
    + intros bytes xml' [= <- <-] Hb. rewrite Hb. split; [|reflexivity].
      destruct py; [discriminate|reflexivity].
    + intros bytes xml' [= <- <-] Hb. rewrite Hb.
      destruct (fs w !! annotation) as [[?|text [root|]]|]; cbn [fst snd logged calls];
        rewrite <- ?app_assoc.
      * split; [reflexivity|]. split; [reflexivity|]. intros (? & ?). discriminate.
      * split; [reflexivity|]. split; [discriminate|]. intros (? & ?). discriminate.
      * split; [reflexivity|]. split; [discriminate|]. reflexivity.
      * split; [reflexivity|]. split; [reflexivity|]. intros (? & ?). discriminate.
  - split; [reflexivity|]. split; intros ? ? [=].
Qed.

(** The second listed identifier of [broken_world] has no image; the
    first bytes of a JPEG file are no UTF-8. *)
Lemma loader_file_errors_witness :
  file_at (fs broken_world) (image_filename "/data/bib" "0099-1" "validation") = None
  /\ _process_image Py3 example_labels "/data/bib" "0099-1" "validation" broken_world
     = (logged broken_world (CRead (image_filename "/data/bib" "0099-1" "validation")),
        Raise IOError)
  /\ decodes Py3 jpeg_magic = false
  /\ snd (_process_image Py3 example_labels "/data/bib" "0042-17" "validation" jpeg_world)
     = Raise UnicodeError.
Proof.
  assert (H : file_at (fs broken_world) (image_filename "/data/bib" "0099-1" "validation")
              = None) by (vm_compute; reflexivity).
  split; [exact H|]. split.
  - exact (proj1 (loader_file_errors Py3 example_labels "/data/bib" "0099-1" "validation"
                                     broken_world) H).
  - split; [vm_compute; reflexivity|].
    destruct (proj1 (proj2 (loader_file_errors Py3 example_labels "/data/bib" "0042-17"
                                               "validation" jpeg_world))
                    jpeg_magic None) as [_ ->].
    + vm_compute. reflexivity.
    + vm_compute. reflexivity.
    + reflexivity.
Defined.

(** X5. Whatever its arguments and whatever it returns, the loader changes
    no file and prints nothing, and the calls it makes on the files are the
    read of the image, or that read and the parse of the annotation. *)
Theorem loader_only_reads
        (py : pyversion) (BIB_LABELS : gmap string Z)
        (directory name dataset : string) (w : World) :
  let w' := fst (_process_image py BIB_LABELS directory name dataset w) in
  let image := image_filename directory name dataset in
  let annotation := annotation_filename directory name dataset in
  fs w' = fs w
  /\ stdout w' = stdout w
  /\ (calls w' = calls w ++ [CRead image]
      \/ calls w' = calls w ++ [CRead image; CParse annotation]).
Proof.
  intros w' image annotation. unfold w'. rewrite _process_image_spec.
  fold image annotation.
  destruct (fs w !! image) as [[?|img ?]|]; cbn [fst logged fs stdout calls]; auto.
  destruct (decodes py img); cbn [fst logged fs stdout calls]; auto.
  destruct (fs w !! annotation) as [[?|? [?|]]|]; cbn [fst logged fs stdout calls];
    rewrite <- app_assoc; auto.
Qed.

(** X6. The loader returns exactly when the image path holds a file that
    the interpreter reads (any file under Python 2, a file of UTF-8 bytes
    under Python 3), the annotation path holds a well-formed document and
    every [object] element of its root has a row: a label of the table in
    ASCII, flags that read as integers and four coordinates that read as
    floats. *)
Theorem loader_returns_iff_every_object_has_row
        (py : pyversion) (BIB_LABELS : gmap string Z)
        (directory name dataset : string) (w : World) :
  is_ok (snd (_process_image py BIB_LABELS directory name dataset w)) = true
  <-> exists image xml bytes root,
      file_at (fs w) (image_filename directory name dataset) = Some (image, xml)
      /\ decodes py image = true
      /\ file_at (fs w) (annotation_filename directory name dataset) = Some (bytes, Some root)
      /\ Forall (fun obj => is_ok (object_row py BIB_LABELS obj) = true)
                (ET.findall "object" root).
Proof.
  rewrite load_by_files.
  destruct (file_at (fs w) (image_filename directory name dataset)) as [[img xml]|].
  - destruct (decodes py img) eqn:Eb.
    + destruct (file_at (fs w) (annotation_filename directory name dataset))
        as [[bytes [root|]]|].
      * unfold rbind.
        pose proof (objects_ok py BIB_LABELS (ET.findall "object" root) no_annotations)
          as Hok.
        destruct (rfor_each _ _ _) as [a|e]; cbn [is_ok] in *.
        -- split; [intros _|reflexivity]. exists img, xml, bytes, root.
           repeat split; [exact Eb|]. apply Forall_forall. intros o Ho.
           symmetry in Hok. rewrite forallb_forall in Hok. apply Hok.
           now apply list_elem_of_In.
        -- split; [discriminate|]. intros (? & ? & ? & root' & _ & _ & [= _ <-] & H).
           rewrite Forall_forall in H. symmetry in Hok.
           apply not_true_iff_false in Hok. exfalso. apply Hok.
           apply forallb_forall. intros o Ho. apply H. now apply list_elem_of_In.
      * split; [discriminate|]. intros (? & ? & ? & ? & _ & _ & ? & _). discriminate.
      * split; [discriminate|]. intros (? & ? & ? & ? & _ & _ & ? & _). discriminate.
    + split; [discriminate|]. intros (? & ? & ? & ? & [= <- _] & Hb & _). congruence.
  - split; [discriminate|]. intros (? & ? & ? & ? & ? & _). discriminate.
Qed.

Lemma loaded_rows py BIB_LABELS directory name dataset w image a bytes root :
  fs w !! annotation_filename directory name dataset = Some (File bytes (Some root)) ->
  snd (_process_image py BIB_LABELS directory name dataset w) = Ok (image, a) ->
  exists rows,
    Forall2 (fun obj row => object_row py BIB_LABELS obj = Ok row)
            (ET.findall "object" root) rows
    /\ a = fold_left push rows no_annotations.
Proof.
  intros Hroot H. rewrite load_by_files in H. unfold file_at in H. rewrite Hroot in H.
  destruct (fs w !! image_filename directory name dataset) as [[?|img xml]|];
    try discriminate.
  destruct (decodes py img); [|discriminate].
  unfold rbind in H.
  destruct (rfor_each _ _ _) as [a'|] eqn:E; [|discriminate].
  injection H as _ <-. now apply objects_rows in E.
Qed.

(** X7. The five lists the loader returns are parallel and in document
    order: there is one row per [object] element of the annotation root,
    the row of the i-th element computed from that element alone, and each
    list holds its component of the rows in that order. *)
Theorem loader_lists_follow_document_order
        (py : pyversion) (BIB_LABELS : gmap string Z)
        (directory name dataset : string) (w : World)
        (image bytes : string) (root : Element) (a : annotations) :
  fs w !! annotation_filename directory name dataset = Some (File bytes (Some root)) ->
  snd (_process_image py BIB_LABELS directory name dataset w) = Ok (image, a) ->
  exists rows,
    Forall2 (fun obj row => object_row py BIB_LABELS obj = Ok row)
            (ET.findall "object" root) rows
    /\ bboxes a = map row_box rows
    /\ labels a = map row_label rows
    /\ labels_text a = map row_text rows
    /\ difficult a = map row_difficult rows
    /\ truncated a = map row_truncated rows.
Proof.
  intros Hroot H.
  destruct (loaded_rows _ _ _ _ _ _ _ _ _ _ Hroot H) as (rows & Hrows & ->).
  exists rows. split; [exact Hrows|].
  destruct (push_rows rows no_annotations) as (-> & -> & -> & -> & ->).
  repeat split.
Qed.

(** The two objects of the small dataset, under Python 3. *)
Lemma loader_lists_follow_document_order_witness :
  fs example_world !! annotation_filename "/data/bib" "0042-17" "validation"
  = Some (File "<annotation>" (Some example_annotation))
  /\ exists rows,
      Forall2 (fun obj row => object_row Py3 example_labels obj = Ok row)
              (ET.findall "object" example_annotation) rows
      /\ map row_label rows = [1; 1]
      /\ map row_text rows = ["bib"; "bib"].
Proof.
  split; [vm_compute; reflexivity|].
  destruct (loader_lists_follow_document_order
              Py3 example_labels "/data/bib" "0042-17" "validation" example_world
              "JFIF" "<annotation>" example_annotation
              {| bboxes := [[Float (120 / 500); Float (100 / 500);
                             Float (360 / 500); Float (300 / 500)];
                            [Float (10 / 500); Float (10 / 500);
                             Float (450 / 500); Float 1]];
                 labels := [1; 1]; labels_text := ["bib"; "bib"];
                 difficult := [0; 0]; truncated := [0; 0] |})
    as (rows & Hrows & _ & Hl & Ht & _).
  - vm_compute. reflexivity.
  - vm_compute. reflexivity.
  - exists rows. split; [exact Hrows|]. split; [now rewrite <- Hl|now rewrite <- Ht].
Defined.

(** X8. With an image file that the interpreter reads, the loader stops
    at the first object that has no row and raises the error of that
    object, whatever follows it in the annotation. *)
Theorem loader_raises_first_object_error
        (py : pyversion) (BIB_LABELS : gmap string Z)
        (directory name dataset : string) (w : World)
        (image : string) (xml : option Element) (bytes : string) (root : Element)
        (pre post : list Element) (obj : Element) (e : exn) :
  file_at (fs w) (image_filename directory name dataset) = Some (image, xml) ->
  decodes py image = true ->
  file_at (fs w) (annotation_filename directory name dataset) = Some (bytes, Some root) ->
  ET.findall "object" root = pre ++ obj :: post ->
  Forall (fun o => is_ok (object_row py BIB_LABELS o) = true) pre ->
  object_row py BIB_LABELS obj = Raise e ->
  snd (_process_image py BIB_LABELS directory name dataset w) = Raise e.
Proof.
  intros Hi Hb Ha Hobjs Hpre Hobj. rewrite load_by_files, Hi, Hb, Ha, Hobjs.
  now rewrite (objects_first_error py BIB_LABELS pre obj post e no_annotations Hpre Hobj).
Qed.

(** The second object of [stranger_annotation] has a label the table does
    not list; the third has no box, and is never reached. *)
Lemma loader_raises_first_object_error_witness :
  snd (_process_image Py3 example_labels "/data/bib" "0042-17" "validation" stranger_world)
  = Raise KeyError.
Proof.
  apply (loader_raises_first_object_error
           Py3 example_labels "/data/bib" "0042-17" "validation" stranger_world
           "JFIF" None "<annotation>" stranger_annotation
           [Elem "object" None [leaf "name" "bib"; bndbox "1" "2" "3" "4"]]
           [Elem "object" None [leaf "name" "bib"]]
           (Elem "object" None [leaf "name" "stranger"; bndbox "1" "2" "3" "4"])).
  - vm_compute. reflexivity.
  - vm_compute. reflexivity.
  - vm_compute. reflexivity.
  - vm_compute. reflexivity.
  - repeat constructor.
  - vm_compute. reflexivity.
Defined.

(** X9. The label is looked up before anything else of an object is read:
    an object without a [name] element raises the attribute error, and one
    whose [name] has no text, or a text that is no key of the label table,
    raises the key error, whatever its flags and its box. *)
Theorem object_label_errors
        (py : pyversion) (BIB_LABELS : gmap string Z) (obj : Element) :
  (ET.find "name" obj = None -> object_row py BIB_LABELS obj = Raise AttributeError)
  /\ (forall e, ET.find "name" obj = Some e ->
                (forall l, ET.text e = Some l -> BIB_LABELS !! l = None) ->
                object_row py BIB_LABELS obj = Raise KeyError).
Proof.
  split.
  - intros H. unfold object_row. now rewrite H.
  - intros e H Hl. unfold object_row. rewrite H. cbn [ET.text_of rbind].
    destruct (ET.text e) as [l|] eqn:El; cbn [label_id]; [|reflexivity].
    now rewrite (Hl l eq_refl).
Qed.

(** An object named [stranger], which the table of the small dataset
    does not list. *)
Lemma object_label_errors_witness :
  object_row Py3 example_labels
             (Elem "object" None [leaf "name" "stranger"; bndbox "1" "2" "3" "4"])
  = Raise KeyError.
Proof.
  apply (proj2 (object_label_errors Py3 example_labels _) (leaf "name" "stranger")).
  - reflexivity.
  - intros l [= <-]. reflexivity.
Defined.

(** X10. An object without a [bndbox] element never gives a row, so an
    annotation that has such an object is never loaded. *)
Theorem object_without_box_is_never_loaded
        (py : pyversion) (BIB_LABELS : gmap string Z)
        (directory name dataset : string) (w : World)
        (bytes : string) (root obj : Element) :
  fs w !! annotation_filename directory name dataset = Some (File bytes (Some root)) ->
  In obj (ET.findall "object" root) ->
  ET.find "bndbox" obj = None ->
  is_ok (snd (_process_image py BIB_LABELS directory name dataset w)) = false.
Proof.
  intros Hroot Hin Hbox. rewrite load_by_files. unfold file_at. rewrite Hroot.
  destruct (fs w !! image_filename directory name dataset) as [[?|img xml]|];
    try reflexivity.
  destruct (decodes py img); [|reflexivity].
  pose proof (objects_ok py BIB_LABELS (ET.findall "object" root) no_annotations) as Hok.
  unfold rbind. destruct (rfor_each _ _ _) as [a|e]; [|reflexivity].
  cbn [is_ok] in Hok. symmetry in Hok. rewrite forallb_forall in Hok.
  specialize (Hok obj Hin).
  now rewrite (object_row_needs_box py BIB_LABELS obj Hbox) in Hok.
Qed.

(** An annotation whose only object has a label and no box. *)
Lemma object_without_box_is_never_loaded_witness :
  is_ok (snd (_process_image Py3 example_labels "/data/bib" "0042-17" "validation"
                {| fs := {[ "/data/bib/JPEGImages/validation/0042-17.jpg" := File "JFIF" None;
                            "/data/bib/Annotations/validation/0042-17.xml"
                              := File "<annotation>"
                                   (Some (Elem "annotation" None
                                            [Elem "object" None [leaf "name" "bib"]])) ]};
                   stdout := []; calls := [] |})) = false.
Proof.
  apply (object_without_box_is_never_loaded
           Py3 example_labels "/data/bib" "0042-17" "validation" _
           "<annotation>"
           (Elem "annotation" None [Elem "object" None [leaf "name" "bib"]])
           (Elem "object" None [leaf "name" "bib"])).
  - vm_compute. reflexivity.
  - left. reflexivity.
  - reflexivity.
Defined.

(** X11. Every label the loader returns is in the table under the text
    returned beside it: the i-th label id is the table's entry for the
    i-th label text, and every label text is ASCII. *)
Theorem loaded_labels_are_table_entries
        (py : pyversion) (BIB_LABELS : gmap string Z)
        (directory name dataset : string) (w : World)
        (image : string) (a : annotations) :
  snd (_process_image py BIB_LABELS directory name dataset w) = Ok (image, a) ->
  Forall2 (fun id text => BIB_LABELS !! text = Some id /\ is_ascii text = true)
          (labels a) (labels_text a).
Proof.
  intros H.
  destruct (_process_image py BIB_LABELS directory name dataset w) as [w' r] eqn:E.
  cbn [snd] in H. subst r.
  apply _process_image_ok in E as (xml & bytes & root & _ & _ & Hloop & _).
  apply objects_rows in Hloop as (rows & Hrows & ->).
  destruct (push_rows rows no_annotations) as (_ & -> & -> & _).
  cbn [labels labels_text no_annotations app].
  induction Hrows as [|obj [[[[box id] text] d] t] objs rows Hrow _ IH];
    cbn [map]; constructor; [|exact IH].
  apply object_row_label in Hrow as (e & _ & _ & Hid & Hascii). now split.
Qed.

(** The labels of the small dataset are entries of its table. *)
Lemma loaded_labels_are_table_entries_witness :
  Forall2 (fun id text => example_labels !! text = Some id /\ is_ascii text = true)
          [1; 1] ["bib"; "bib"].
Proof.
  apply (loaded_labels_are_table_entries
           Py3 example_labels "/data/bib" "0042-17" "validation" example_world "JFIF"
           {| bboxes := [[Float (120 / 500); Float (100 / 500);
                          Float (360 / 500); Float (300 / 500)];
                         [Float (10 / 500); Float (10 / 500);
                          Float (450 / 500); Float 1]];
              labels := [1; 1]; labels_text := ["bib"; "bib"];
              difficult := [0; 0]; truncated := [0; 0] |}).
  vm_compute. reflexivity.
Defined.

(** X12. When no flag element of any object has child elements, as in
    every annotation that writes a flag as [<difficult>1</difficult>], the
    difficult and the truncated lists the loader returns hold zeros only,
    one per object. *)
Theorem leaf_flags_load_as_zeros
        (py : pyversion) (BIB_LABELS : gmap string Z)
        (directory name dataset : string) (w : World)
        (image bytes : string) (root : Element) (a : annotations) :
  fs w !! annotation_filename directory name dataset = Some (File bytes (Some root)) ->
  Forall (fun obj => forall f e, In f ["difficult"; "truncated"] ->
                                 ET.find f obj = Some e -> ET.children e = [])
         (ET.findall "object" root) ->
  snd (_process_image py BIB_LABELS directory name dataset w) = Ok (image, a) ->
  let n := length (ET.findall "object" root) in
  difficult a = repeat 0 n /\ truncated a = repeat 0 n.
Proof.
  intros Hroot Hleaf H n. unfold n. clear n.
  destruct (loaded_rows _ _ _ _ _ _ _ _ _ _ Hroot H) as (rows & Hrows & ->).
  destruct (push_rows rows no_annotations) as (_ & _ & _ & -> & ->).
  cbn [difficult truncated no_annotations app]. clear H Hroot.
  induction Hrows as [|obj [[[[box id] text] d] t] objs rows Hrow _ IH]; [now split|].
  inversion Hleaf as [|? ? Hobj Hobjs]; subst.
  destruct (IH Hobjs) as [IHd IHt].
  destruct (object_row_flags py BIB_LABELS obj box id text d t Hobj Hrow) as [-> ->].
  cbn [map length repeat row_difficult row_truncated]. now rewrite IHd, IHt.
Qed.

(** The first object of the small dataset is marked difficult by a leaf
    element; both lists are zeros. *)
Lemma leaf_flags_load_as_zeros_witness :
  fs example_world !! annotation_filename "/data/bib" "0042-17" "validation"
  = Some (File "<annotation>" (Some example_annotation))
  /\ ET.find "difficult" (Elem "object" None
                            [leaf "name" "bib"; leaf "difficult" "1";
                             bndbox "100" "120" "300" "360"])
     = Some (leaf "difficult" "1")
  /\ [0; 0] = repeat 0 2 /\ [0; 0] = repeat 0 2.
Proof.
  split; [vm_compute; reflexivity|]. split; [reflexivity|].
  apply (leaf_flags_load_as_zeros
           Py2 example_labels "/data/bib" "0042-17" "validation" example_world
           "JFIF" "<annotation>" example_annotation
           {| bboxes := [[Float (120 / 500); Float (100 / 500);
                          Float (360 / 500); Float (300 / 500)];
                         [Float (10 / 500); Float (10 / 500);
                          Float (450 / 500); Int 1]];
              labels := [1; 1]; labels_text := ["bib"; "bib"];
              difficult := [0; 0]; truncated := [0; 0] |}).
  - vm_compute. reflexivity.
  - apply Forall_forall. intros obj Hobj f e Hf He.
    apply list_elem_of_In in Hobj.
    destruct Hobj as [<-|[<-|[]]]; destruct Hf as [<-|[<-|[]]]; vm_compute in He;
      try discriminate; now injection He as <-.
  - vm_compute. reflexivity.
Defined.

(** X13. An annotation without any [object] element is no error of the
    loader: with an image file that the interpreter reads, it returns the
    image with five empty lists. A record that the encoder returns for
    them has the fixed geometry, the image and eight empty sequences. *)
Theorem image_without_objects_gives_empty_record
        (py : pyversion) (BIB_LABELS : gmap string Z)
        (dataset_dir dataset name : string) (w : World)
        (image bytes : string) (xml : option Element) (root : Element) :
  fs w !! image_filename dataset_dir name dataset = Some (File image xml) ->
  decodes py image = true ->
  fs w !! annotation_filename dataset_dir name dataset = Some (File bytes (Some root)) ->
  ET.findall "object" root = [] ->
  snd (_process_image py BIB_LABELS dataset_dir name dataset w) = Ok (image, no_annotations)
  /\ forall ex,
       encoded_example py BIB_LABELS dataset_dir dataset name w = Ok ex ->
       ex = {| image_height := 500; image_width := 500; image_channels := 3;
               image_shape := [500; 500; 3];
               bbox_xmin := []; bbox_xmax := []; bbox_ymin := []; bbox_ymax := [];
               bbox_label := []; bbox_label_text := [];
               bbox_difficult := []; bbox_truncated := [];
               image_format := "JPEG"; image_encoded := image |}.
Proof.
  intros Hi Hb Ha Hobjs.
  assert (H : snd (_process_image py BIB_LABELS dataset_dir name dataset w)
              = Ok (image, no_annotations)).
  { rewrite load_by_files. unfold file_at. now rewrite Hi, Hb, Ha, Hobjs. }
  split; [exact H|]. intros ex. unfold encoded_example. rewrite H.
  cbn. now intros [= <-].
Qed.

(** The annotation of [empty_world] has a root and nothing below it. *)
Lemma image_without_objects_gives_empty_record_witness :
  snd (_process_image Py2 example_labels "/data/bib" "0042-17" "validation" empty_world)
  = Ok ("JFIF", no_annotations).
Proof.
  apply (image_without_objects_gives_empty_record
           Py2 example_labels "/data/bib" "validation" "0042-17" empty_world
           "JFIF" "<annotation>" None (Elem "annotation" None [])).
  - vm_compute. reflexivity.
  - reflexivity.
  - vm_compute. reflexivity.
  - reflexivity.
Defined.

(** ** One coordinate *)

(** X14. What the loader makes of a raw coordinate: above 500 it is one,
    below 0 it is zero, and in these two cases an int under Python 2 (the
    clamp returns the int bound and [/] is the floor division of ints) and
    a float under Python 3; any other raw value, NaN included, is divided
    by 500 as a float. The division never fails. *)
Theorem normalized_cases (py : pyversion) (raw : float) (i : nat) :
  (i < 2)%nat ->
  normalized py raw i
  = if PrimFloat.ltb 500 raw then
      Ok (match py with Py2 => Int 1 | Py3 => Float 1 end)
    else if PrimFloat.ltb raw 0 then
      Ok (match py with Py2 => Int 0 | Py3 => Float 0 end)
    else Ok (Float (raw / 500)).
Proof.
  intros Hi. unfold normalized.
  assert (E : IMAGE_SHAPE_at i = 500) by (destruct i as [|[|i]]; [reflexivity..|lia]).
  rewrite E.
  destruct Z2F_constants as (E0 & E1 & E500).
  destruct (clamp_cases raw i Hi) as [[H ->]|[(H & H' & ->)|(H & H' & ->)]];
    unfold Num.lt, Num.to_float in *; rewrite ?E0, ?E500 in *; rewrite H, ?H'.
  - destruct py; vm_compute; reflexivity.
  - destruct py; vm_compute; reflexivity.
  - unfold Num.div. cbn [Num.is_zero Z.eqb Num.to_float]. now rewrite E500.
Qed.

(** A raw coordinate of 600 on the width, under Python 2. *)
Lemma normalized_cases_witness :
  (1 < 2)%nat /\ normalized Py2 600 1 = Ok (Int 1).
Proof.
  split; [lia|]. exact (normalized_cases Py2 600 1 ltac:(lia)).
Defined.

(** ** The encoder on any lists *)

Lemma boxes_of_columns boxes :
  Forall (fun b => length b = 4%nat) boxes ->
  boxes_of (float_feature (column 0 boxes)) (float_feature (column 1 boxes))
           (float_feature (column 2 boxes)) (float_feature (column 3 boxes))
  = map float_feature boxes.
Proof.
  induction 1 as [|b boxes Hb _ IH]; [reflexivity|].
  destruct b as [|p0 [|p1 [|p2 [|p3 [|? ?]]]]]; try discriminate.
  unfold column, float_feature in *. cbn [map nth boxes_of]. now rewrite IH.
Qed.

Lemma Forall_four boxes :
  forallb (fun b => (length b =? 4)%nat) boxes = true
  <-> Forall (fun b : list number => length b = 4%nat) boxes.
Proof.
  rewrite forallb_forall, Forall_forall. split; intros H b Hb.
  - apply Nat.eqb_eq, H. now apply list_elem_of_In.
  - apply Nat.eqb_eq, H. now apply list_elem_of_In.
Qed.

(** X15. The assertion of the encoder is on the boxes alone: it raises
    the assertion error exactly when some box has other than four
    coordinates, whatever the image, the labels and the flags are and
    however many there are of them; the lengths of the lists are never
    compared. *)
Theorem encoder_asserts_only_box_arity
        (image : string) (labels : list Z) (labels_text : list string)
        (boxes : list (list number)) (difficult truncated : list Z) :
  _convert_to_example image labels labels_text boxes difficult truncated
  = Raise AssertionError
  <-> forallb (fun b => (length b =? 4)%nat) boxes = false.
Proof.
  destruct (forallb (fun b => (length b =? 4)%nat) boxes) eqn:E.
  - apply Forall_four in E. rewrite _convert_to_example_columns by exact E.
    split; discriminate.
  - split; [reflexivity|]. intros _. apply _convert_to_example_asserts.
    apply not_true_iff_false in E. rewrite Forall_four in E.
    apply not_Forall_Exists in E; [|intros b; apply Nat.eq_dec].
    exact E.
Qed.

(** X16. The record keeps the boxes: read across, the four coordinate
    sequences give back the box list the encoder was handed, coordinate by
    coordinate as floats, first to [xmin], second to [ymin], third to
    [xmax], fourth to [ymax]; the labels, the label texts, the flags and
    the image are stored as given. *)
Theorem record_keeps_boxes
        (image : string) (labels : list Z) (labels_text : list string)
        (boxes : list (list number)) (difficult truncated : list Z) :
  Forall (fun b => length b = 4%nat) boxes ->
  exists ex,
    _convert_to_example image labels labels_text boxes difficult truncated = Ok ex
    /\ boxes_of (bbox_xmin ex) (bbox_ymin ex) (bbox_xmax ex) (bbox_ymax ex)
       = map float_feature boxes
    /\ bbox_label ex = labels /\ bbox_label_text ex = labels_text
    /\ bbox_difficult ex = difficult /\ bbox_truncated ex = truncated
    /\ image_encoded ex = image.
Proof.
  intros H. rewrite _convert_to_example_columns by exact H.
  eexists. split; [reflexivity|]. cbn.
  split; [now apply boxes_of_columns|]. repeat split.
Qed.

(** Two boxes and a single label: the encoder does not compare the
    lengths. *)
Lemma record_keeps_boxes_witness :
  exists ex,
    _convert_to_example "JFIF" [1] [] [[Int 0; Float 0.5; Int 1; Float 1];
                                       [Float 0.25; Int 0; Float 0.75; Int 1]] [] [0; 0; 0]
    = Ok ex
    /\ boxes_of (bbox_xmin ex) (bbox_ymin ex) (bbox_xmax ex) (bbox_ymax ex)
       = [[0; 0.5; 1; 1]; [0.25; 0; 0.75; 1]]%float
    /\ bbox_label ex = [1] /\ bbox_truncated ex = [0; 0; 0].
Proof.
  destruct (record_keeps_boxes "JFIF" [1] [] [[Int 0; Float 0.5; Int 1; Float 1];
                                              [Float 0.25; Int 0; Float 0.75; Int 1]]
                               [] [0; 0; 0])
    as (ex & Hex & Hb & Hl & _ & _ & Ht & _).
  - repeat constructor.
  - exists ex. split; [exact Hex|]. split; [|now split].
    rewrite Hb. vm_compute. reflexivity.
Defined.

(** ** One record *)

Section OneRecord.

Context (py : pyversion) (BIB_LABELS : gmap string Z)
        (SerializeToString : Example -> string) (frame : string -> string).

Local Open Scope py_scope.


(** [_add_to_tfrecord] on a writer whose file holds [c]. *)
Lemma add_step dataset_dir dataset name writer w c xml :
  fs w !! writer = Some (File c xml) ->
  let r := _add_to_tfrecord py BIB_LABELS SerializeToString frame
                            dataset_dir dataset name writer w in
  stdout (fst r) = stdout w
  /\ match encoded_example py BIB_LABELS dataset_dir dataset name w with
     | Ok ex =>
         snd r = Ok tt
         /\ fs (fst r) = <[writer := File (c +:+ frame (SerializeToString ex)) None]> (fs w)
         /\ calls (fst r)
            = calls (fst (_process_image py BIB_LABELS dataset_dir name dataset w))
                ++ [CWrite writer]
     | Raise e =>
         snd r = Raise e /\ fs (fst r) = fs w
         /\ calls (fst r)
            = calls (fst (_process_image py BIB_LABELS dataset_dir name dataset w))
     end.
Proof.
  intros Hw r. unfold r. rewrite _add_to_tfrecord_spec.
  destruct (_process_image_quiet py BIB_LABELS dataset_dir name dataset w) as [Hs Hf].
  cbv zeta in Hs, Hf.
  destruct (encoded_example py BIB_LABELS dataset_dir dataset name w) as [ex|e].
  - rewrite writer_write_spec, Hf, Hw. cbn [fst snd fs stdout calls]. auto.
  - cbn [fst snd]. auto.
Qed.

End OneRecord.

(** X17. When the loader and the encoder succeed for an identifier,
    [_add_to_tfrecord] appends one framed record, the serialized Example
    of that identifier, to the file of the writer: that file grows by this
    record, no other path changes, nothing is printed, and the write is
    the one call made after the loader's. *)
Theorem add_to_tfrecord_appends_one_record
        (py : pyversion) (BIB_LABELS : gmap string Z)
        (SerializeToString : Example -> string) (frame : string -> string)
        (dataset_dir dataset name writer : string) (w : World)
        (c : string) (xml : option Element) (ex : Example) :
  fs w !! writer = Some (File c xml) ->
  encoded_example py BIB_LABELS dataset_dir dataset name w = Ok ex ->
  let r := _add_to_tfrecord py BIB_LABELS SerializeToString frame
                            dataset_dir dataset name writer w in
  snd r = Ok tt
  /\ fs (fst r) = <[writer := File (c +:+ frame (SerializeToString ex)) None]> (fs w)
  /\ stdout (fst r) = stdout w
  /\ calls (fst r)
     = calls (fst (_process_image py BIB_LABELS dataset_dir name dataset w))
         ++ [CWrite writer].
Proof.
  intros Hw Hex r.
  destruct (add_step py BIB_LABELS SerializeToString frame
                     dataset_dir dataset name writer w c xml Hw) as [Hs H].
  rewrite Hex in H. destruct H as (Hr & Hf & Hc). fold r in Hs, Hr, Hf, Hc. auto.
Qed.

(** The record of the small dataset's image, appended to its record
    file. *)
Lemma add_to_tfrecord_appends_one_record_witness :
  exists ex,
    encoded_example Py3 example_labels "/data/bib" "validation" "0042-17" example_world = Ok ex
    /\ fs (fst (_add_to_tfrecord Py3 example_labels (fun _ => "E") (fun r => "<" +:+ r +:+ ">")
                                 "/data/bib" "validation" "0042-17"
                                 "/out/bib_validation.tfrecord" example_world))
       = <["/out/bib_validation.tfrecord" := File "records<E>" None]> (fs example_world).
Proof.
  destruct (encoded_example Py3 example_labels "/data/bib" "validation" "0042-17"
                            example_world) as [ex|e] eqn:E.
  - exists ex. split; [reflexivity|].
    apply (add_to_tfrecord_appends_one_record
             Py3 example_labels (fun _ => "E") (fun r => "<" +:+ r +:+ ">")
             "/data/bib" "validation" "0042-17" "/out/bib_validation.tfrecord"
             example_world "records" None ex).
    + vm_compute. reflexivity.
    + exact E.
  - vm_compute in E. discriminate.
Defined.

(** X18. When the loader or the encoder fails for an identifier,
    [_add_to_tfrecord] raises that error and writes nothing: every path
    holds what it held, nothing is printed and no call follows the
    loader's. *)
Theorem add_to_tfrecord_failure_writes_nothing
        (py : pyversion) (BIB_LABELS : gmap string Z)
        (SerializeToString : Example -> string) (frame : string -> string)
        (dataset_dir dataset name writer : string) (w : World)
        (c : string) (xml : option Element) (e : exn) :
  fs w !! writer = Some (File c xml) ->
  encoded_example py BIB_LABELS dataset_dir dataset name w = Raise e ->
  let r := _add_to_tfrecord py BIB_LABELS SerializeToString frame
                            dataset_dir dataset name writer w in
  snd r = Raise e
  /\ fs (fst r) = fs w
  /\ stdout (fst r) = stdout w
  /\ calls (fst r)
     = calls (fst (_process_image py BIB_LABELS dataset_dir name dataset w)).
Proof.
  intros Hw Hex r.
  destruct (add_step py BIB_LABELS SerializeToString frame
                     dataset_dir dataset name writer w c xml Hw) as [Hs H].
  rewrite Hex in H. destruct H as (Hr & Hf & Hc). fold r in Hs, Hr, Hf, Hc. auto.
Qed.

(** An identifier without files, on the record file of the small
    dataset. *)
Lemma add_to_tfrecord_failure_writes_nothing_witness :
  snd (_add_to_tfrecord Py3 example_labels (fun _ => "E") (fun r => r)
                        "/data/bib" "validation" "0099-1"
                        "/out/bib_validation.tfrecord" example_world)
  = Raise IOError
  /\ fs (fst (_add_to_tfrecord Py3 example_labels (fun _ => "E") (fun r => r)
                               "/data/bib" "validation" "0099-1"
                               "/out/bib_validation.tfrecord" example_world))
     = fs example_world.
Proof.
  destruct (add_to_tfrecord_failure_writes_nothing
              Py3 example_labels (fun _ => "E") (fun r => r)
              "/data/bib" "validation" "0099-1" "/out/bib_validation.tfrecord"
              example_world "records" None IOError)
    as (Hr & Hf & _).
  - vm_compute. reflexivity.
  - vm_compute. reflexivity.
  - split; [exact Hr|exact Hf].
Defined.

(** ** A whole run *)

Section Conversion.

Context (py : pyversion) (BIB_LABELS : gmap string Z)
        (SerializeToString : Example -> string) (frame : string -> string).

Local Open Scope py_scope.







Lemma file_at_insert_ne f p q n : p <> q -> file_at (<[q := n]> f) p = file_at f p.
Proof. intros H. unfold file_at. now rewrite lookup_insert_ne by congruence. Qed.

Lemma file_at_new_dir f p q :
  f !! q = None -> file_at (<[q := Dir []]> f) p = file_at f p.
Proof.
  intros H. unfold file_at. destruct (decide (q = p)) as [->|Hne].
  - now rewrite lookup_insert_eq, H.
  - now rewrite lookup_insert_ne.
Qed.







End Conversion.

Section Runs.

Context (py : pyversion) (BIB_LABELS : gmap string Z)
        (SerializeToString : Example -> string) (frame : string -> string).

Local Open Scope py_scope.





End Runs.







(** ** What a run leaves alone *)

Section Frames.

Context (py : pyversion) (BIB_LABELS : gmap string Z)
        (SerializeToString : Example -> string) (frame : string -> string).

Local Open Scope py_scope.

Lemma Frame_same {A} target (m : M A) :
  (forall w, fs (fst (m w)) = fs w) -> Frame target m.
Proof. intros H w p _. now rewrite H. Qed.

Lemma Frame_bind {A B} target (m : M A) (k : A -> M B) :
  Frame target m -> (forall a, Frame target (k a)) -> Frame target (bind m k).
Proof.
  intros Hm Hk w p Hp. unfold bind. specialize (Hm w p Hp).
  destruct (m w) as [w' [a|e]]; cbn [fst] in *; [|exact Hm].
  rewrite <- Hm. now apply Hk.
Qed.

Lemma Frame_for_each {A S} target (body : S -> A -> M S) l :
  (forall s x, Frame target (body s x)) -> forall s, Frame target (for_each l s body).
Proof.
  intros Hb. induction l as [|x l IH]; intros s; cbn [for_each].
  - now apply Frame_same.
  - apply Frame_bind; auto.
Qed.

Lemma Frame_MakeDirs target dir : Frame target (gfile.MakeDirs dir).
Proof.
  intros w p _. rewrite MakeDirs_spec.
  destruct (fs w !! dir) as [[?|? ?]|] eqn:E; cbn [fst fs logged]; try reflexivity.
  now apply file_at_new_dir.
Qed.

Lemma Frame_writer_open target : Frame target (writer_open target).
Proof.
  intros w p Hp. rewrite writer_open_spec.
  destruct (fs w !! target) as [[?|? ?]|]; cbn [fst fs logged]; try reflexivity;
    now apply file_at_insert_ne.
Qed.

Lemma Frame_writer_write target record : Frame target (writer_write frame target record).
Proof.
  intros w p Hp. rewrite writer_write_spec.
  destruct (fs w !! target) as [[?|? ?]|]; cbn [fst fs logged]; try reflexivity;
    now apply file_at_insert_ne.
Qed.

Lemma Frame__add_to_tfrecord target dataset_dir dataset name :
  Frame target (_add_to_tfrecord py BIB_LABELS SerializeToString frame
                                 dataset_dir dataset name target).
Proof.
  unfold _add_to_tfrecord.
  apply Frame_bind.
  - apply Frame_same. intros w. apply (_process_image_quiet py BIB_LABELS).
  - intros [image a]. apply Frame_bind; [now apply Frame_same|]. intros ex.
    apply Frame_writer_write.
Qed.

(** The run writes no file but the output file. *)
Lemma Frame_run dataset_dir output_dir name dataset :
  Frame (_get_output_filename output_dir dataset name)
        (run py BIB_LABELS SerializeToString frame dataset_dir output_dir name dataset).
Proof.
  unfold run.
  apply Frame_bind; [now apply Frame_same|]. intros e.
  apply Frame_bind; [destruct e; [now apply Frame_same|apply Frame_MakeDirs]|]. intros _.
  apply Frame_bind; [now apply Frame_same|]. intros [|]; [now apply Frame_same|].
  apply Frame_bind.
  { apply Frame_same. intros w. now rewrite enumerate_identifiers_spec. }
  intros filenames.
  apply Frame_bind; [apply Frame_writer_open|]. intros _.
  apply Frame_bind; [|intros _; now apply Frame_same].
  apply Frame_for_each. intros i filename.
  apply Frame_bind; [now apply Frame_same|]. intros _.
  apply Frame_bind; [apply Frame__add_to_tfrecord|]. intros _.
  now apply Frame_same.
Qed.

End Frames.

(** X22. Whatever the arguments and the files, and whether it returns or
    raises, a run removes nothing and writes no file but its output file,
    and that one only where nothing was at its path: every path that
    existed still exists, every file other than the output file holds
    what it held, and so does the output file when it was there
    before. *)
Theorem run_touches_only_its_output
        (py : pyversion) (BIB_LABELS : gmap string Z)
        (SerializeToString : Example -> string) (frame : string -> string)
        (dataset_dir output_dir name dataset : string) (w : World) (p : string) :
  let target := _get_output_filename output_dir dataset name in
  let w' := fst (run py BIB_LABELS SerializeToString frame
                     dataset_dir output_dir name dataset w) in
  (is_Some (fs w !! p) -> is_Some (fs w' !! p))
  /\ (p <> target \/ is_Some (fs w !! p) -> file_at (fs w') p = file_at (fs w) p).
Proof.
  intros target w'. unfold w'. split.
  - apply Keeps_run.
  - intros H. destruct (decide (p = target)) as [->|Hne].
    + destruct H as [H|H]; [contradiction|].
      rewrite run_skip by exact H. cbn [fst fs].
      destruct (fs w !! output_dir) eqn:Ed; [reflexivity|]. now apply file_at_new_dir.
    + now apply Frame_run.
Qed.

(** ** Where a coordinate of the annotation ends up *)

Section Columns.

Context (py : pyversion) (BIB_LABELS : gmap string Z).

Local Open Scope py_scope.

(** The k-th column of the loaded boxes, object by object. *)
Lemma column_by_tag (k : nat) (t : string) (i : nat) objs rows :
  (forall obj box id text d f,
      object_row py BIB_LABELS obj = Ok (box, id, text, d, f) ->
      exists raw v, coordinate py t (ET.find "bndbox" obj) = Ok raw
                    /\ normalized py raw i = Ok v /\ nth k box (Int 0) = v) ->
  Forall2 (fun obj row => object_row py BIB_LABELS obj = Ok row) objs rows ->
  Forall2 (fun obj x =>
             exists raw v, coordinate py t (ET.find "bndbox" obj) = Ok raw
                           /\ normalized py raw i = Ok v /\ x = Num.to_float v)
          objs (float_feature (column k (map row_box rows))).
Proof.
  intros Hk. induction 1 as [|obj [[[[box id] text] d] f] objs rows Hrow _ IH];
    [constructor|].
  cbn [map column float_feature row_box]. constructor; [|exact IH].
  destruct (Hk _ _ _ _ _ _ Hrow) as (raw & v & Hc & Hn & ->). eauto.
Qed.

End Columns.

(** X23. Which tag of the annotation a sequence of the record holds, for
    every image that is converted: the entry of an object in the record's
    xmin sequence is the normalized value of the object's [ymin] element,
    in the ymin sequence that of [xmin], in the xmax sequence that of
    [ymax] and in the ymax sequence that of [xmax]; x and y stand
    exchanged in every record the script writes. *)
Theorem record_sequences_by_annotation_tag
        (py : pyversion) (BIB_LABELS : gmap string Z)
        (dataset_dir dataset name : string) (w : World)
        (bytes : string) (root : Element) (ex : Example) :
  fs w !! annotation_filename dataset_dir name dataset = Some (File bytes (Some root)) ->
  encoded_example py BIB_LABELS dataset_dir dataset name w = Ok ex ->
  let holds (t : string) (i : nat) (xs : list float) :=
    Forall2 (fun obj x =>
               exists raw v, coordinate py t (ET.find "bndbox" obj) = Ok raw
                             /\ normalized py raw i = Ok v /\ x = Num.to_float v)
            (ET.findall "object" root) xs in
  holds "ymin" 0%nat (bbox_xmin ex) /\ holds "xmin" 1%nat (bbox_ymin ex)
  /\ holds "ymax" 0%nat (bbox_xmax ex) /\ holds "xmax" 1%nat (bbox_ymax ex).
Proof.
  intros Hroot Hex holds. unfold holds. clear holds.
  destruct (snd (_process_image py BIB_LABELS dataset_dir name dataset w))
    as [[image a]|e] eqn:E; [|unfold encoded_example in Hex; rewrite E in Hex; discriminate].
  destruct (encoded_example_ok py BIB_LABELS _ _ _ _ _ _ E) as [_ Hrec].
  rewrite Hrec in Hex. injection Hex as <-.
  cbn [bbox_xmin bbox_ymin bbox_xmax bbox_ymax].
  destruct (loaded_rows _ _ _ _ _ _ _ _ _ _ Hroot E) as (rows & Hrows & ->).
  destruct (push_rows rows no_annotations) as (-> & _).
  cbn [bboxes no_annotations app].
  split; [|split; [|split]].
  - apply (column_by_tag py BIB_LABELS 0 "ymin" 0); [|exact Hrows].
    intros obj box id text d f Hrow.
    apply object_row_box in Hrow
      as (ymin & xmin & ymax & xmax & b0 & b1 & b2 & b3
          & H0 & H1 & H2 & H3 & N0 & N1 & N2 & N3 & ->).
    cbn [nth]. eauto.
  - apply (column_by_tag py BIB_LABELS 1 "xmin" 1); [|exact Hrows].
    intros obj box id text d f Hrow.
    apply object_row_box in Hrow
      as (ymin & xmin & ymax & xmax & b0 & b1 & b2 & b3
          & H0 & H1 & H2 & H3 & N0 & N1 & N2 & N3 & ->).
    cbn [nth]. eauto.
  - apply (column_by_tag py BIB_LABELS 2 "ymax" 0); [|exact Hrows].
    intros obj box id text d f Hrow.
    apply object_row_box in Hrow
      as (ymin & xmin & ymax & xmax & b0 & b1 & b2 & b3
          & H0 & H1 & H2 & H3 & N0 & N1 & N2 & N3 & ->).
    cbn [nth]. eauto.
  - apply (column_by_tag py BIB_LABELS 3 "xmax" 1); [|exact Hrows].
    intros obj box id text d f Hrow.
    apply object_row_box in Hrow
      as (ymin & xmin & ymax & xmax & b0 & b1 & b2 & b3
          & H0 & H1 & H2 & H3 & N0 & N1 & N2 & N3 & ->).
    cbn [nth]. eauto.
Qed.

(** The second object of the small dataset has ymin 10 and xmax 600. *)
Lemma record_sequences_by_annotation_tag_witness :
  exists ex,
    encoded_example Py3 example_labels "/data/bib" "validation" "0042-17" example_world = Ok ex
    /\ Forall2 (fun obj x =>
                  exists raw v, coordinate Py3 "ymin" (ET.find "bndbox" obj) = Ok raw
                                /\ normalized Py3 raw 0 = Ok v /\ x = Num.to_float v)
               (ET.findall "object" example_annotation) (bbox_xmin ex)
    /\ bbox_xmin ex = [120 / 500; 10 / 500]%float.
Proof.
  destruct (encoded_example Py3 example_labels "/data/bib" "validation" "0042-17"
                            example_world) as [ex|e] eqn:E; [|vm_compute in E; discriminate].
  exists ex. split; [reflexivity|]. split.
  - apply (record_sequences_by_annotation_tag
             Py3 example_labels "/data/bib" "validation" "0042-17" example_world
             "<annotation>" example_annotation ex).
    + vm_compute. reflexivity.
    + exact E.
  - vm_compute in E. injection E as <-. reflexivity.
Defined.
